(** * MibandHeart: heart-rate monitor (src/main.py)

    A shallow embedding of the decoding, buffering, persistence, discovery
    and notification-handling code of [src/main.py], and the properties of
    the specification that concern them.

    Python objects that the program mutates (the [HeartRateMonitor]
    instance, the open file, standard output) and the wall clock it reads
    live in one [State] record; every method is a computation in the
    state-and-exception monad [M].  The file system is taken to accept
    every [open] and every write on an open file: the one I/O failure that
    is modelled is the one the program can cause by itself, a write on a
    closed file ([ValueError]). *)

From stdpp Require Import base list strings pretty.
From Stdlib Require Import ZArith Strings.Ascii Strings.Byte Lia.

Open Scope string_scope.
Open Scope Z_scope.
Open Scope list_scope.

(** ** Python values used by the program *)

(** [bytes] / [bytearray]: a sequence of integers in [0, 256). *)
Definition bytes := list byte.

Definition byte_to_Z (b : byte) : Z := Z.of_N (Byte.to_N b).

(** A cell handed to [csv.writer.writerow]: a [str] or an [int]. *)
Inductive pyval :=
| PStr (s : string)
| PInt (z : Z).

Definition Row := list pyval.

(** Truthiness of an integer, [bool(n)]. *)
Definition py_bool (z : Z) : bool := bool_decide (z ≠ 0).

(** [l[-n:]] for a non-negative [n]: the last [n] elements, the whole list
    when it is shorter. *)
Definition slice_last {A} (n : nat) (l : list A) : list A :=
  drop (length l - n) l.

(** [s or default] on an optional string: [None] and [""] are falsy. *)
Definition str_or (s : option string) (default : string) : string :=
  match s with
  | Some (String a r) => String a r
  | _ => default
  end.

(** ** datetime *)

Record datetime := mk_datetime {
  dt_year : nat; dt_month : nat; dt_day : nat;
  dt_hour : nat; dt_minute : nat; dt_second : nat;
  dt_microsecond : nat }.

Definition digit (n : nat) : ascii := ascii_of_nat (48 + n mod 10).

(** Zero-padded decimal of fixed width; the fields of a [datetime] never
    exceed the width they are printed with. *)
Fixpoint zfill (width n : nat) : string :=
  match width with
  | O => ""
  | S w => zfill w (n / 10) +:+ String (digit n) ""
  end.

(** [strftime("%H:%M:%S")] *)
Definition strftime_HMS (d : datetime) : string :=
  zfill 2 (dt_hour d) +:+ ":" +:+ zfill 2 (dt_minute d) +:+ ":" +:+
  zfill 2 (dt_second d).

(** [strftime("%Y%m%d_%H%M%S")] *)
Definition strftime_Ymd_HMS (d : datetime) : string :=
  zfill 4 (dt_year d) +:+ zfill 2 (dt_month d) +:+ zfill 2 (dt_day d) +:+
  "_" +:+
  zfill 2 (dt_hour d) +:+ zfill 2 (dt_minute d) +:+ zfill 2 (dt_second d).

(** [isoformat()]: the microseconds are printed only when non-zero. *)
Definition isoformat (d : datetime) : string :=
  zfill 4 (dt_year d) +:+ "-" +:+ zfill 2 (dt_month d) +:+ "-" +:+
  zfill 2 (dt_day d) +:+ "T" +:+ strftime_HMS d +:+
  (if bool_decide (dt_microsecond d = 0%nat) then ""
   else "." +:+ zfill 6 (dt_microsecond d)).

(** ** Decoded measurement *)

(** The dict built at the end of [parse_heart_rate_data]. *)
Record Sample := mk_Sample {
  heart_rate : Z;
  sensor_contact : option bool;
  flag : Z;
  timestamp : string }.

(** What [parse_heart_rate_data] returns: the dict with the single key
    ["error"], or a sample dict. *)
Inductive parsed :=
| PError (msg : string)
| PSample (s : Sample).

(** The tri-state of the specification, read off [sensor_contact]. *)
Inductive SensorContactStatus := Unsupported | NotDetected | Detected.

Definition sensorContactStatus (s : Sample) : SensorContactStatus :=
  match sensor_contact s with
  | None => Unsupported
  | Some false => NotDetected
  | Some true => Detected
  end.

(** ** Program state *)

(** A file object: the rows still in the writer's buffer, the rows that
    [flush] has handed to the operating system, the rows among these that
    [os.fsync] has forced to stable storage, and whether [close] was
    called. *)
Record File := mk_File {
  f_name : string;
  f_buffer : list Row;
  f_flushed : list Row;
  f_synced : list Row;
  f_closed : bool }.

Definition f_rows (f : File) : list Row := f_flushed f ++ f_buffer f.

(** The [HeartRateMonitor] fields the modelled methods touch, followed by
    the environment: the clock (an oracle indexed by the number of readings
    taken so far), the file objects (a handle is an index) and stdout.
    [csv_writer] holds the handle of the file the writer wraps, which is
    the object [csv_file] refers to as well. *)
Record State := mk_State {
  heart_rate_history : list Sample;
  csv_filename : option string;
  csv_writer : option nat;
  csv_file : option nat;
  clock : nat → datetime;
  ticks : nat;
  files : list File;
  stdout : list string }.

Definition set_history (h : list Sample) (st : State) : State :=
  mk_State h (csv_filename st) (csv_writer st) (csv_file st)
           (clock st) (ticks st) (files st) (stdout st).
Definition set_csv_filename (n : option string) (st : State) : State :=
  mk_State (heart_rate_history st) n (csv_writer st) (csv_file st)
           (clock st) (ticks st) (files st) (stdout st).
Definition set_csv_writer (w : option nat) (st : State) : State :=
  mk_State (heart_rate_history st) (csv_filename st) w (csv_file st)
           (clock st) (ticks st) (files st) (stdout st).
Definition set_csv_file (f : option nat) (st : State) : State :=
  mk_State (heart_rate_history st) (csv_filename st) (csv_writer st) f
           (clock st) (ticks st) (files st) (stdout st).
Definition set_ticks (t : nat) (st : State) : State :=
  mk_State (heart_rate_history st) (csv_filename st) (csv_writer st)
           (csv_file st) (clock st) t (files st) (stdout st).
Definition set_files (fs : list File) (st : State) : State :=
  mk_State (heart_rate_history st) (csv_filename st) (csv_writer st)
           (csv_file st) (clock st) (ticks st) fs (stdout st).
Definition set_stdout (out : list string) (st : State) : State :=
  mk_State (heart_rate_history st) (csv_filename st) (csv_writer st)
           (csv_file st) (clock st) (ticks st) (files st) out.

(** [HeartRateMonitor.__init__], in a process that has opened no file and
    printed nothing yet. *)
Definition HeartRateMonitor_init (clk : nat → datetime) : State :=
  mk_State [] None None None clk 0 [] [].

(** ** The monad of state and exceptions *)

Inductive exn :=
| IndexError (msg : string)
| ValueError (msg : string)
| AttributeError (msg : string).

(** [str(e)] *)
Definition exn_str (e : exn) : string :=
  match e with
  | IndexError m | ValueError m | AttributeError m => m
  end.

Inductive outcome (A : Type) :=
| Ret (a : A)
| Raise (e : exn).
Arguments Ret {A} a.
Arguments Raise {A} e.

Definition M (A : Type) : Type := State → outcome A * State.

Global Instance M_ret : MRet M := λ A a st, (Ret a, st).
Global Instance M_bind : MBind M := λ A B f m st,
  match m st with
  | (Ret a, st') => f a st'
  | (Raise e, st') => (Raise e, st')
  end.

Definition raise {A} (e : exn) : M A := λ st, (Raise e, st).
Definition gets {A} (f : State → A) : M A := λ st, (Ret (f st), st).
Definition modify (f : State → State) : M unit := λ st, (Ret tt, f st).

(** [try: body  except Exception as e: handler e] *)
Definition try_except {A} (body : M A) (handler : exn → M A) : M A :=
  λ st, match body st with
        | (Ret a, st') => (Ret a, st')
        | (Raise e, st') => handler e st'
        end.

(** [for x in l: f x] *)
Fixpoint for_each {A} (f : A → M unit) (l : list A) : M unit :=
  match l with
  | [] => mret tt
  | x :: l' => f x ;; for_each f l'
  end.

(** The state a computation ends in, and its outcome. *)
Definition exec {A} (m : M A) (st : State) : State := (m st).2.
Definition eval {A} (m : M A) (st : State) : outcome A := (m st).1.

(** ** Library calls *)

(** [datetime.now()]: the next reading of the clock. *)
Definition datetime_now : M datetime := λ st,
  (Ret (clock st (ticks st)), set_ticks (S (ticks st)) st).

Definition print (line : string) : M unit :=
  modify (λ st, set_stdout (stdout st ++ [line]) st).

(** [data[i]] on bytes. *)
Definition bytes_getitem (data : bytes) (i : nat) : M Z :=
  match data !! i with
  | Some b => mret (byte_to_Z b)
  | None => raise (IndexError "index out of range")
  end.

Definition closed_msg : string := "I/O operation on closed file.".

(** [open(name, 'w', ...)]: a new, empty, open file object. *)
Definition open_w (name : string) : M nat := λ st,
  (Ret (length (files st)),
   set_files (files st ++ [mk_File name [] [] [] false]) st).

(** [writer.writerow(row)] where the writer wraps file [h]. *)
Definition csv_writerow (h : nat) (row : Row) : M unit := λ st,
  match files st !! h with
  | Some f =>
      if f_closed f then (Raise (ValueError closed_msg), st)
      else (Ret tt,
            set_files (<[h := mk_File (f_name f) (f_buffer f ++ [row])
                                      (f_flushed f) (f_synced f) false]>
                         (files st)) st)
  | None => (Raise (ValueError closed_msg), st)
  end.

(** [file.flush()]: the buffered rows go to the operating system. *)
Definition file_flush (h : nat) : M unit := λ st,
  match files st !! h with
  | Some f =>
      if f_closed f then (Raise (ValueError closed_msg), st)
      else (Ret tt,
            set_files (<[h := mk_File (f_name f) []
                                      (f_flushed f ++ f_buffer f)
                                      (f_synced f) false]>
                         (files st)) st)
  | None => (Raise (ValueError closed_msg), st)
  end.

(** [file.close()]: flushes, then closes; a no-op on a closed file. *)
Definition file_close (h : nat) : M unit := λ st,
  match files st !! h with
  | Some f =>
      (Ret tt,
       set_files (<[h := mk_File (f_name f) []
                                 (f_flushed f ++ f_buffer f)
                                 (f_synced f) true]>
                    (files st)) st)
  | None => (Ret tt, st)
  end.

(** [os.fsync(file.fileno())]: what the operating system holds of the file
    is forced to stable storage.  The program never calls it. *)
Definition os_fsync (h : nat) : M unit := λ st,
  match files st !! h with
  | Some f =>
      if f_closed f then (Raise (ValueError closed_msg), st)
      else (Ret tt,
            set_files (<[h := mk_File (f_name f) (f_buffer f) (f_flushed f)
                                      (f_flushed f) false]> (files st)) st)
  | None => (Raise (ValueError closed_msg), st)
  end.

(** ** HeartRateMonitor *)

Definition init_csv_file : M unit :=
  now ← datetime_now;
  let timestamp := strftime_Ymd_HMS now in
  let name := "heart_rate_" +:+ timestamp +:+ ".csv" in
  modify (set_csv_filename (Some name)) ;;
  h ← open_w name;
  modify (set_csv_file (Some h)) ;;
  modify (set_csv_writer (Some h)) ;;
  csv_writerow h [PStr "time"; PStr "rate"] ;;
  print ("数据将保存到: " +:+ name).

Definition too_short_msg : string := "数据长度不足".

Definition parse_heart_rate_data (data : bytes) : M parsed :=
  if bool_decide (length data < 2)%nat then mret (PError too_short_msg)
  else
    flag ← bytes_getitem data 0;
    heart_rate_value ← bytes_getitem data 1;
    heart_rate_value ←
      (if bool_decide (Z.land flag 1 ≠ 0) then
         if bool_decide (3 ≤ length data)%nat then
           b2 ← bytes_getitem data 2;
           mret (Z.lor heart_rate_value (b2 ≪ 8))
         else mret heart_rate_value
       else mret heart_rate_value);
    let sensor_contact :=
      if bool_decide (Z.land flag 4 ≠ 0)
      then Some (py_bool (Z.land flag 2)) else None in
    now ← datetime_now;
    mret (PSample (mk_Sample heart_rate_value sensor_contact flag
                             (isoformat now))).

Definition save_heart_rate_data (data : Sample) : M unit :=
  modify (λ st, set_history (heart_rate_history st ++ [data]) st) ;;
  w ← gets csv_writer;
  match w with
  | Some h =>
      now ← datetime_now;
      let time_str := strftime_HMS now in
      csv_writerow h [PStr time_str; PInt (heart_rate data)] ;;
      f ← gets csv_file;
      match f with
      | Some fh => file_flush fh
      | None => raise (AttributeError "'NoneType' object has no attribute 'flush'")
      end
  | None => mret tt
  end ;;
  history ← gets heart_rate_history;
  if bool_decide (1000 < length history)%nat
  then modify (set_history (slice_last 500 history))
  else mret tt.

Definition close_csv_file : M unit :=
  f ← gets csv_file;
  match f with
  | Some fh =>
      file_close fh ;;
      name ← gets csv_filename;
      print ("数据已保存到: " +:+ default "None" name)
  | None => mret tt
  end.

(** ** Notification handling (handle_heart_rate_notifications) *)

(** The callback registered with [start_notify]; [data] is the payload of
    one notification. *)
Definition notification_handler (data : bytes) : M unit :=
  try_except
    (parsed_data ← parse_heart_rate_data data;
     match parsed_data with
     | PSample s =>           (* "error" not in parsed_data *)
         save_heart_rate_data s ;;
         now ← datetime_now;
         let time_str := strftime_HMS now in
         let hr := heart_rate s in
         print (time_str +:+ " 心率: " +:+ pretty hr +:+ " BPM")
     | PError _ => mret tt
     end)
    (λ e, print ("处理心率数据时出错: " +:+ exn_str e)).

(** The notifications of a streaming session, handled in arrival order. *)
Definition stream (notifications : list bytes) : M unit :=
  for_each notification_handler notifications.

(** ** Device discovery (scan_for_heart_rate_devices) *)

Definition HRS_UUID : string := "0000180d-0000-1000-8000-00805f9b34fb".
Definition HRM_UUID : string := "00002a37-0000-1000-8000-00805f9b34fb".

Record BLEDevice := mk_BLEDevice {
  address : string;
  name : option string }.

Record AdvertisementData := mk_AdvertisementData {
  service_uuids : list string }.

(** A Python dict with string keys: the items in insertion order, each key
    once. *)
Definition dict (V : Type) : Type := list (string * V).

(** [k in d] *)
Definition dict_contains {V} (k : string) (d : dict V) : bool :=
  bool_decide (k ∈ d.*1).

(** [d[k] = v]: a new key goes to the end, an old one keeps its place. *)
Definition dict_setitem {V} (k : string) (v : V) (d : dict V) : dict V :=
  if dict_contains k d
  then (λ kv, if bool_decide (kv.1 = k) then (k, v) else kv) <$> d
  else (d ++ [(k, v)])%list.

(** [list(d.values())] *)
Definition dict_values {V} (d : dict V) : list V := d.*2.

(** One advertisement as the scanner hands it to the callback. *)
Definition Advertisement : Type := BLEDevice * AdvertisementData.

(** [detection_callback]; [devices_dict] is the dict of the enclosing
    function, which the callback updates in place. *)
Definition detection_callback (device : BLEDevice)
    (advertisement_data : AdvertisementData)
    (devices_dict : dict BLEDevice) : M (dict BLEDevice) :=
  if bool_decide (HRS_UUID ∈ service_uuids advertisement_data) then
    if negb (dict_contains (address device) devices_dict) then
      print ("发现心率设备: " +:+ str_or (name device) "未知" +:+
             " (" +:+ address device +:+ ")") ;;
      mret (dict_setitem (address device) device devices_dict)
    else mret devices_dict
  else mret devices_dict.

(** The callbacks of one scan window, in the order the advertisements
    arrive. *)
Fixpoint deliver (ads : list Advertisement) (devices_dict : dict BLEDevice)
    : M (dict BLEDevice) :=
  match ads with
  | [] => mret devices_dict
  | (device, adv) :: ads' =>
      d ← detection_callback device adv devices_dict;
      deliver ads' d
  end.

(** [scan_for_heart_rate_devices], given the advertisements that arrive
    between [scanner.start()] and [scanner.stop()]. *)
Definition scan_for_heart_rate_devices (ads : list Advertisement)
    : M (list BLEDevice) :=
  print "正在扫描心率设备..." ;;
  devices_dict ← deliver ads [];
  mret (dict_values devices_dict).

(** ** Vocabulary of the statements *)

(** Byte [i] of a payload as an unsigned integer (0 past the end). *)
Definition byte_at (data : bytes) (i : nat) : Z :=
  match data !! i with Some b => byte_to_Z b | None => 0 end.

(** The state after one reading of the clock. *)
Definition tick (st : State) : State := set_ticks (S (ticks st)) st.

(** [sensor_contact] as the parser computes it from the flags byte. *)
Definition contact_of (b0 : byte) : option bool :=
  if Z.testbit (byte_to_Z b0) 2 then Some (Z.testbit (byte_to_Z b0) 1)
  else None.

(** Two results of the parser that agree on everything decoded from the
    payload: the same error, or samples with the same heart rate, contact
    status and flags (the timestamps may differ). *)
Definition same_decoding (p1 p2 : parsed) : Prop :=
  match p1, p2 with
  | PError m1, PError m2 => m1 = m2
  | PSample s1, PSample s2 =>
      heart_rate s1 = heart_rate s2 ∧
      sensor_contact s1 = sensor_contact s2 ∧
      flag s1 = flag s2
  | _, _ => False
  end.

(** The rows that file [h] holds, flushed or not. *)
Definition file_rows (h : nat) (st : State) : list Row :=
  match files st !! h with Some f => f_rows f | None => [] end.

(** The rows of file [h] that [flush] has pushed out. *)
Definition flushed_rows (h : nat) (st : State) : list Row :=
  match files st !! h with Some f => f_flushed f | None => [] end.

(** The rows of file [h] that were forced to stable storage. *)
Definition synced_rows (h : nat) (st : State) : list Row :=
  match files st !! h with Some f => f_synced f | None => [] end.

(** The monitor writes to the open file [h]. *)
Definition sink_open (h : nat) (st : State) : Prop :=
  csv_writer st = Some h ∧ csv_file st = Some h ∧
  ∃ f, files st !! h = Some f ∧ f_closed f = false.

(** No writer was created, or the writer's file is open: a save cannot
    raise. *)
Definition sink_ok (st : State) : Prop :=
  csv_writer st = None ∨ ∃ h, sink_open h st.

(** The history after the trimming step of [save_heart_rate_data]. *)
Definition trimmed (l : list Sample) : list Sample :=
  if bool_decide (1000 < length l)%nat then slice_last 500 l else l.

(** The row that a save writes for sample [s] when the clock reads [d]. *)
Definition row_of (d : datetime) (s : Sample) : Row :=
  [PStr (strftime_HMS d); PInt (heart_rate s)].

(** A file after [row] was written to it and the file flushed. *)
Definition written (row : Row) (f : File) : File :=
  mk_File (f_name f) [] (f_flushed f ++ f_buffer f ++ [row]) (f_synced f)
          false.

(** The rows of consecutive saves of [samples], the first of which reads
    the clock at reading number [t]. *)
Fixpoint rows_of (clk : nat → datetime) (t : nat) (samples : list Sample)
    : list Row :=
  match samples with
  | [] => []
  | s :: samples' => row_of (clk t) s :: rows_of clk (S t) samples'
  end.

(** The header row, and the file name chosen at time [d]. *)
Definition header_row : Row := [PStr "time"; PStr "rate"].
Definition session_filename (d : datetime) : string :=
  "heart_rate_" +:+ strftime_Ymd_HMS d +:+ ".csv".

(** The advertisement carries the Heart Rate Service. *)
Definition accepted (a : Advertisement) : Prop :=
  HRS_UUID ∈ service_uuids a.2.

Global Instance accepted_dec (a : Advertisement) : Decision (accepted a).
Proof. unfold accepted. apply _. Defined.

(** The registry as the specification words it: an advertisement is taken
    when it carries the Heart Rate Service and its address was not seen
    before; the devices taken are listed in the order of discovery.
    [seen] holds the addresses taken so far. *)
Fixpoint first_seen (seen : list string) (ads : list Advertisement)
    : list BLEDevice :=
  match ads with
  | [] => []
  | (device, adv) :: ads' =>
      if bool_decide (HRS_UUID ∈ service_uuids adv ∧ address device ∉ seen)
      then device :: first_seen (seen ++ [address device]) ads'
      else first_seen seen ads'
  end.

(** The dict item made for a device. *)
Definition item_of (device : BLEDevice) : string * BLEDevice :=
  (address device, device).

(** A clock for closed examples: one second per reading, from
    2024-01-01 12:00:00. *)
Definition clock0 (n : nat) : datetime :=
  mk_datetime 2024 1 1 12 0 n 0.

(** A fresh monitor, and a session that has opened its sink. *)
Definition st_new : State := HeartRateMonitor_init clock0.
Definition st_streaming : State := exec init_csv_file st_new.

(** ** Operator selection (show_device_selection) *)

(** What the operator does at one prompt: types a line and presses Enter,
    or sends an interrupt ([KeyboardInterrupt] inside [input()]). *)
Inductive input_event :=
| Typed (line : string)
| Interrupt.

(** The result of a function that reads the terminal: its return value
    with the input that is left, or the [EOFError] that [input()] raises
    when the input has ended. *)
Inductive prompted (A : Type) :=
| Returned (a : A) (rest : list input_event)
| EOFError.
Arguments Returned {A} a rest.
Arguments EOFError {A}.

(** ["\n"], and [s * n]. *)
Definition nl : string := String "010" "".

Fixpoint str_repeat (s : string) (n : nat) : string :=
  match n with
  | O => ""
  | S n' => s +:+ str_repeat s n'
  end.

Definition selection_prompt : string := nl +:+ "请选择连接的设备 (输入数字): ".
Definition eof_msg : string := "EOF when reading a line".

(** ** GATT objects of the transport *)

Record GATTCharacteristic := mk_GATTCharacteristic {
  char_uuid : string }.

Record GATTService := mk_GATTService {
  service_uuid : string;
  characteristics : list GATTCharacteristic }.

(** A connected [BleakClient]: the address it was made for and the
    services the peer exposes. *)
Record BleakClient := mk_BleakClient {
  client_address : string;
  client_services : list GATTService }.

(** What [client.connect()] does: it succeeds and the services of the peer
    become known, or it raises an exception with the given message. *)
Inductive connect_outcome :=
| ConnectOk (services : list GATTService)
| ConnectFails (msg : string).

(** One run of the program, as the outside world drives it: the
    advertisements of the scan window, what the operator does at the
    prompt, how the connection attempt ends, the notifications delivered
    while [start_notify] is awaited and those delivered afterwards until
    the link drops, and what [client.is_connected] reads in the final
    clean-up. *)
Record Run := mk_Run {
  run_ads : list Advertisement;
  run_inputs : list input_event;
  run_connect : connect_outcome;
  run_early : list bytes;
  run_later : list bytes;
  run_link_up : bool }.

Section Builtins.

(** Three built-ins of Python that the code calls on strings typed by the
    operator or sent by the peer: [str.strip], [int] (where [None] stands
    for [ValueError]) and [str.lower]. *)
Variable str_strip : string → string.
Variable py_int : string → option Z.
Variable str_lower : string → string.

(** [for i, device in enumerate(devices, i): print(...)] *)
Fixpoint print_devices (i : nat) (devices : list BLEDevice) : M unit :=
  match devices with
  | [] => mret tt
  | device :: devices' =>
      let device_name := str_or (name device) "未知设备" in
      print (pretty i +:+ ". " +:+ device_name +:+
             " (" +:+ address device +:+ ")") ;;
      print_devices (S i) devices'
  end.

(** The [while True] loop of the prompt; [input(prompt)] writes the prompt
    and then takes the next thing the operator does. *)
Fixpoint selection_loop (devices : list BLEDevice) (inputs : list input_event)
    : M (prompted (option BLEDevice)) :=
  match inputs with
  | [] => print selection_prompt ;; mret EOFError
  | Interrupt :: rest =>
      print selection_prompt ;;
      print (nl +:+ "用户取消选择") ;;
      mret (Returned None rest)
  | Typed line :: rest =>
      print selection_prompt ;;
      let choice := str_strip line in
      match py_int choice with
      | None => print "请输入有效的数字" ;; selection_loop devices rest
      | Some choice_num =>
          if bool_decide (1 ≤ choice_num ≤ Z.of_nat (length devices)) then
            match devices !! Z.to_nat (choice_num - 1) with
            | Some selected_device =>
                print ("已选择: " +:+ str_or (name selected_device) "未知" +:+
                       " (" +:+ address selected_device +:+ ")") ;;
                mret (Returned (Some selected_device) rest)
            | None => raise (IndexError "list index out of range")
            end
          else
            print ("请输入 1-" +:+ pretty (length devices) +:+ " 之间的数字") ;;
            selection_loop devices rest
      end
  end.

Definition show_device_selection (devices : list BLEDevice)
    (inputs : list input_event) : M (prompted (option BLEDevice)) :=
  match devices with
  | [] => mret (Returned None inputs)
  | _ =>
      print (nl +:+ str_repeat "=" 50) ;;
      print "目前找到心率设备：" ;;
      print_devices 1 devices ;;
      selection_loop devices inputs
  end.

(** ** Connection and streaming *)

Definition connect_to_device (device : BLEDevice) (how : connect_outcome)
    : M (option BleakClient) :=
  print "正在连接到设备..." ;;
  match how with
  | ConnectOk services =>
      print "连接成功" ;;
      mret (Some (mk_BleakClient (address device) services))
  | ConnectFails msg =>
      print ("连接失败: " +:+ msg) ;;
      mret None
  end.

(** The first service, and the first characteristic, whose identifier is
    the wanted one up to letter case. *)
Definition find_service (services : list GATTService) : option GATTService :=
  List.find (λ service,
               bool_decide (str_lower (service_uuid service) = str_lower HRS_UUID))
            services.

Definition find_characteristic (service : GATTService)
    : option GATTCharacteristic :=
  List.find (λ char,
               bool_decide (str_lower (char_uuid char) = str_lower HRM_UUID))
            (characteristics service).

(** The client offers the Heart Rate Measurement characteristic inside
    the Heart Rate Service, up to letter case. *)
Definition offers_heart_rate (client : BleakClient) : Prop :=
  ∃ service char,
    find_service (client_services client) = Some service ∧
    find_characteristic service = Some char.

(** [handle_heart_rate_notifications]; [early] are the notifications
    handled while [start_notify] is awaited, [later] those handled while
    the function polls [client.is_connected], until it reads false. *)
Definition handle_heart_rate_notifications (client : BleakClient)
    (early later : list bytes) : M unit :=
  print "正在订阅心率数据..." ;;
  try_except
    (match find_service (client_services client) with
     | None => print "未找到心率服务"
     | Some heart_rate_service =>
         match find_characteristic heart_rate_service with
         | None => print "未找到心率测量特征"
         | Some _ =>
             stream early ;;
             print "开始接收心率数据... (按 Ctrl+C 停止)" ;;
             stream later
         end
     end)
    (λ e, print ("处理心率通知时出错: " +:+ exn_str e)).

(** ** main *)

(** [monitor = HeartRateMonitor()] *)
Definition new_monitor (st : State) : State :=
  mk_State [] None None None (clock st) (ticks st) (files st) (stdout st).

(** The body of the [try] up to the assignment of [monitor.client]: scan,
    selection and connection.  It returns the client when all three
    succeed; an [EOFError] of the prompt reaches the [except Exception] of
    [main], which prints it. *)
Definition before_connect (r : Run) : M (option BleakClient) :=
  devices ← scan_for_heart_rate_devices (run_ads r);
  match devices with
  | [] => print "未找到支持心率服务的设备" ;; mret None
  | _ =>
      selected ← show_device_selection devices (run_inputs r);
      match selected with
      | EOFError => print ("程序运行出错: " +:+ eof_msg) ;; mret None
      | Returned None _ => mret None
      | Returned (Some selected_device) _ =>
          connect_to_device selected_device (run_connect r)
      end
  end.

(** The rest of the [try], once [monitor.client] is set. *)
Definition session (client : BleakClient) (r : Run) : M unit :=
  init_csv_file ;;
  handle_heart_rate_notifications client (run_early r) (run_later r).

(** The [finally] block, for the runs in which the call of [disconnect()]
    returns; [client] is [monitor.client].  The call changes nothing in
    the modelled state.  In the source an exception of [disconnect()]
    would leave the block before [close_csv_file()] is reached; such
    transport errors are outside this model. *)
Definition main_teardown (client : option BleakClient) (link_up : bool)
    : M unit :=
  (if bool_decide (is_Some client) && link_up
   then print "设备已断开连接"
   else mret tt) ;;
  close_csv_file.

(** [main], in a run without an interrupt outside the prompt.  The two
    [try_except] are the one [except Exception] of the source, before and
    after the assignment of [monitor.client]. *)
Definition main (r : Run) : M unit :=
  modify new_monitor ;;
  print "小米手环心率监控器" ;;
  print (str_repeat "=" 50) ;;
  client ←
    try_except (before_connect r)
               (λ e, print ("程序运行出错: " +:+ exn_str e) ;; mret None);
  match client with
  | Some c =>
      try_except (session c r)
                 (λ e, print ("程序运行出错: " +:+ exn_str e))
  | None => mret tt
  end ;;
  main_teardown client (run_link_up r).

End Builtins.

(** ** Vocabulary of the further statements *)

(** The heart rate that the parser reads off a payload of two bytes or
    more. *)
Definition value_of (data : bytes) : Z :=
  if Z.testbit (byte_at data 0) 0 && bool_decide (3 ≤ length data)%nat
  then byte_at data 1 + 256 * byte_at data 2
  else byte_at data 1.

(** A payload that the parser accepts. *)
Definition well_formed (data : bytes) : Prop := (2 ≤ length data)%nat.

Global Instance well_formed_dec (data : bytes) : Decision (well_formed data).
Proof. unfold well_formed. apply _. Defined.

(** The number of samples that the history holds after [n] saves into an
    empty history. *)
Definition history_length (n : nat) : nat :=
  if bool_decide (n ≤ 1000)%nat then n else (500 + (n - 1001) mod 501)%nat.

(** The monitor has a writer whose file was closed. *)
Definition sink_closed (h : nat) (st : State) : Prop :=
  csv_writer st = Some h ∧ csv_file st = Some h ∧
  ∃ f, files st !! h = Some f ∧ f_closed f = true.

(** The line that the scan prints for a discovered device, and the line
    that the handler prints for a sample at time [d]. *)
Definition discovery_line (device : BLEDevice) : string :=
  "发现心率设备: " +:+ str_or (name device) "未知" +:+
  " (" +:+ address device +:+ ")".

Definition rate_line (d : datetime) (hr : Z) : string :=
  strftime_HMS d +:+ " 心率: " +:+ pretty hr +:+ " BPM".

(** The rows and the output lines of a stream of notifications handled on
    an open sink, when the clock stands at reading number [t]: a
    well-formed payload takes three readings (parser, row, output line),
    any other payload none. *)
Fixpoint rows_of_stream (clk : nat → datetime) (t : nat) (ns : list bytes)
    : list Row :=
  match ns with
  | [] => []
  | data :: ns' =>
      if decide (well_formed data)
      then [PStr (strftime_HMS (clk (S t))); PInt (value_of data)]
             :: rows_of_stream clk (3 + t) ns'
      else rows_of_stream clk t ns'
  end.

Fixpoint lines_of_stream (clk : nat → datetime) (t : nat) (ns : list bytes)
    : list string :=
  match ns with
  | [] => []
  | data :: ns' =>
      if decide (well_formed data)
      then rate_line (clk (2 + t)%nat) (value_of data)
             :: lines_of_stream clk (3 + t) ns'
      else lines_of_stream clk t ns'
  end.

(** The line that the handler prints when a save raised. *)
Definition save_error_line (e : exn) : string :=
  "处理心率数据时出错: " +:+ exn_str e.

(** Two states with the same monitor, files and clock, whatever was
    printed. *)
Definition same_but_stdout (st st' : State) : Prop :=
  heart_rate_history st' = heart_rate_history st ∧
  csv_filename st' = csv_filename st ∧
  csv_writer st' = csv_writer st ∧
  csv_file st' = csv_file st ∧
  clock st' = clock st ∧ ticks st' = ticks st ∧
  files st' = files st.

(** Two results of the parser that differ at most in the flags byte they
    retain. *)
Definition same_reading (p1 p2 : parsed) : Prop :=
  match p1, p2 with
  | PError m1, PError m2 => m1 = m2
  | PSample s1, PSample s2 =>
      heart_rate s1 = heart_rate s2 ∧
      sensor_contact s1 = sensor_contact s2 ∧
      timestamp s1 = timestamp s2
  | _, _ => False
  end.

(** Instances of the built-ins for closed examples: they agree with
    Python on lines made of ASCII decimal digits and on identifiers in
    ASCII. *)
Definition digit_value (c : ascii) : option Z :=
  let n := nat_of_ascii c in
  if bool_decide (48 ≤ n ≤ 57)%nat then Some (Z.of_nat (n - 48)) else None.

Fixpoint digits_value (acc : Z) (s : string) : option Z :=
  match s with
  | "" => Some acc
  | String c s' =>
      match digit_value c with
      | Some d => digits_value (10 * acc + d) s'
      | None => None
      end
  end.

Definition int0 (s : string) : option Z :=
  match s with
  | "" => None
  | _ => digits_value 0 s
  end.

Definition lower_char (c : ascii) : ascii :=
  let n := nat_of_ascii c in
  if bool_decide (65 ≤ n ≤ 90)%nat then ascii_of_nat (n + 32) else c.

Fixpoint lower0 (s : string) : string :=
  match s with
  | "" => ""
  | String c s' => String (lower_char c) (lower0 s')
  end.

Definition strip0 (s : string) : string := s.

(** * Properties *)

(** ** Bytes and bit operations *)

Lemma byte_to_Z_range (b : byte) : 0 ≤ byte_to_Z b < 256.
Proof.
  unfold byte_to_Z. pose proof (Byte.to_N_bounded b). lia.
Qed.

Lemma land_bit0 (b : byte) :
  bool_decide (Z.land (byte_to_Z b) 1 ≠ 0) = Z.testbit (byte_to_Z b) 0.
Proof. destruct b; reflexivity. Qed.

Lemma land_bit1 (b : byte) :
  py_bool (Z.land (byte_to_Z b) 2) = Z.testbit (byte_to_Z b) 1.
Proof. destruct b; reflexivity. Qed.

Lemma land_bit2 (b : byte) :
  bool_decide (Z.land (byte_to_Z b) 4 ≠ 0) = Z.testbit (byte_to_Z b) 2.
Proof. destruct b; reflexivity. Qed.

Lemma land_low_shiftl a b : 0 ≤ a < 256 → Z.land a (b ≪ 8) = 0.
Proof.
  intros Ha. apply Z.bits_inj'. intros n Hn.
  rewrite Z.land_spec, Z.bits_0.
  destruct (Z.lt_ge_cases n 8) as [Hlt | Hge].
  - rewrite (Z.shiftl_spec_low b 8 n Hlt). apply andb_false_r.
  - replace a with (a mod 2 ^ 8) by (apply Z.mod_small; lia).
    rewrite Z.mod_pow2_bits_high by lia. reflexivity.
Qed.

Lemma lor_little_endian (b1 b2 : byte) :
  Z.lor (byte_to_Z b1) (byte_to_Z b2 ≪ 8) = byte_to_Z b1 + 256 * byte_to_Z b2.
Proof.
  rewrite <- Z.add_nocarry_lor
    by (apply land_low_shiftl, byte_to_Z_range).
  rewrite Z.shiftl_mul_pow2 by lia. change (2 ^ 8) with 256. lia.
Qed.

(** ** The parser, equation by equation *)

Ltac run_monad :=
  unfold mbind, mret, M_bind, M_ret, raise, gets, modify; simpl.

Lemma parse_short data st :
  (length data < 2)%nat →
  parse_heart_rate_data data st = (Ret (PError too_short_msg), st).
Proof.
  intros H. unfold parse_heart_rate_data.
  rewrite bool_decide_eq_true_2 by done. reflexivity.
Qed.

Lemma parse_two b0 b1 st :
  parse_heart_rate_data [b0; b1] st =
  (Ret (PSample (mk_Sample (byte_to_Z b1) (contact_of b0) (byte_to_Z b0)
                           (isoformat (clock st (ticks st))))),
   tick st).
Proof.
  unfold parse_heart_rate_data, bytes_getitem, datetime_now.
  run_monad. rewrite land_bit0, land_bit2, land_bit1.
  unfold contact_of. destruct (Z.testbit (byte_to_Z b0) 0); reflexivity.
Qed.

Lemma parse_three b0 b1 b2 rest st :
  parse_heart_rate_data (b0 :: b1 :: b2 :: rest) st =
  (Ret (PSample (mk_Sample
                   (if Z.testbit (byte_to_Z b0) 0
                    then byte_to_Z b1 + 256 * byte_to_Z b2
                    else byte_to_Z b1)
                   (contact_of b0) (byte_to_Z b0)
                   (isoformat (clock st (ticks st))))),
   tick st).
Proof.
  unfold parse_heart_rate_data, bytes_getitem, datetime_now.
  run_monad.
  rewrite land_bit0, land_bit2, land_bit1, <- lor_little_endian, ?Z.bit0_odd.
  unfold contact_of. destruct (Z.odd (byte_to_Z b0)); reflexivity.
Qed.

(** A payload of two bytes or more always decodes, and decoding reads the
    clock once and touches nothing else. *)
Lemma parse_long data st :
  (2 ≤ length data)%nat →
  ∃ s, parse_heart_rate_data data st = (Ret (PSample s), tick st) ∧
       flag s = byte_at data 0 ∧
       timestamp s = isoformat (clock st (ticks st)).
Proof.
  destruct data as [|b0 [|b1 [|b2 rest]]]; simpl; try lia; intros _.
  - rewrite parse_two. eauto.
  - rewrite parse_three. eauto.
Qed.

Lemma eval_parse_short data st :
  (length data < 2)%nat →
  eval (parse_heart_rate_data data) st = Ret (PError too_short_msg).
Proof. intros H. unfold eval. by rewrite parse_short. Qed.

Lemma contact_status_of b0 ts hr :
  sensorContactStatus (mk_Sample hr (contact_of b0) (byte_to_Z b0) ts) =
  if Z.testbit (byte_to_Z b0) 2
  then (if Z.testbit (byte_to_Z b0) 1 then Detected else NotDetected)
  else Unsupported.
Proof.
  unfold sensorContactStatus, contact_of. cbn [sensor_contact].
  destruct (Z.testbit (byte_to_Z b0) 2), (Z.testbit (byte_to_Z b0) 1);
    reflexivity.
Qed.

(** The three payloads the specification lists. *)
Example parse_8bit_unsupported st :
  eval (parse_heart_rate_data [x00; x48]) st =
  Ret (PSample (mk_Sample 72 None 0 (isoformat (clock st (ticks st))))).
Proof. unfold eval. rewrite parse_two. reflexivity. Qed.

Example parse_8bit_detected st :
  eval (parse_heart_rate_data [x06; x50]) st =
  Ret (PSample (mk_Sample 80 (Some true) 6 (isoformat (clock st (ticks st))))).
Proof. unfold eval. rewrite parse_two. reflexivity. Qed.

Example parse_16bit_not_detected st :
  eval (parse_heart_rate_data [x05; x50; x01]) st =
  Ret (PSample (mk_Sample 336 (Some false) 5
                          (isoformat (clock st (ticks st))))).
Proof. unfold eval. rewrite parse_three. reflexivity. Qed.

(** ** Claims about the parser *)

(** C1. For a payload of at least two bytes the parser returns a sample.
    With bit 0 of the flags clear its heart rate is byte 1, an 8-bit
    unsigned value; with bit 0 set and at least three bytes it is
    byte 1 + 256 * byte 2.  The contact status is Detected or NotDetected
    after bit 1 when bit 2 is set, and Unsupported when bit 2 is clear,
    whatever bit 1 is. *)
Theorem C1_parse_decode (data : bytes) (st : State) :
  (2 ≤ length data)%nat →
  ∃ s, eval (parse_heart_rate_data data) st = Ret (PSample s) ∧
    (Z.testbit (byte_at data 0) 0 = false →
       heart_rate s = byte_at data 1 ∧ 0 ≤ heart_rate s < 256) ∧
    (Z.testbit (byte_at data 0) 0 = true → (3 ≤ length data)%nat →
       heart_rate s = byte_at data 1 + 256 * byte_at data 2) ∧
    (Z.testbit (byte_at data 0) 2 = true →
       sensorContactStatus s =
       if Z.testbit (byte_at data 0) 1 then Detected else NotDetected) ∧
    (Z.testbit (byte_at data 0) 2 = false →
       sensorContactStatus s = Unsupported).
Proof.
  destruct data as [|b0 [|b1 [|b2 rest]]]; intros Hlen;
    try (simpl in Hlen; lia); clear Hlen;
    unfold eval, byte_at;
    cbn [lookup list_lookup length].
  - rewrite parse_two. eexists; split; [reflexivity|].
    rewrite contact_status_of. cbn [heart_rate].
    pose proof (byte_to_Z_range b1).
    split; [|split; [|split]].
    + intros _. lia.
    + intros _ Hlen. simpl in Hlen. lia.
    + intros Hb. rewrite Hb. reflexivity.
    + intros Hb. rewrite Hb. reflexivity.
  - rewrite parse_three. eexists; split; [reflexivity|].
    rewrite contact_status_of. cbn [heart_rate fst].
    pose proof (byte_to_Z_range b1).
    split; [|split; [|split]].
    + intros Hb. rewrite Hb in *. lia.
    + intros Hb _. rewrite Hb. reflexivity.
    + intros Hb. rewrite Hb. reflexivity.
    + intros Hb. rewrite Hb. reflexivity.
Qed.

Lemma C1_parse_decode_witness :
  ∃ s, eval (parse_heart_rate_data [x05; x50; x01]) st_new = Ret (PSample s) ∧
       heart_rate s = 336 ∧ sensorContactStatus s = NotDetected.
Proof.
  destruct (C1_parse_decode [x05; x50; x01] st_new) as (s & Hs & _ & H16 & Hc & _).
  - simpl. lia.
  - exists s. split; [exact Hs|]. split.
    + rewrite H16; [reflexivity | reflexivity | simpl; lia].
    + rewrite Hc; reflexivity.
Defined.

(** A two-byte payload whose flags announce a 16-bit value is decoded from
    its single value byte: the parser does not reject it. *)
Lemma C2_counterexample :
  Z.testbit (byte_at [x01; x50] 0) 0 = true ∧
  (length [x01; x50] < 3)%nat ∧
  eval (parse_heart_rate_data [x01; x50]) st_new =
  Ret (PSample (mk_Sample 80 None 1 "2024-01-01T12:00:00")).
Proof.
  split; [reflexivity|]. split; [simpl; lia|].
  unfold eval. rewrite parse_two. reflexivity.
Qed.

(** C2, amended. For a payload whose flags byte has bit 0 set and whose
    length is less than 3: when the length is less than 2 the parser fails
    with the too-short error; when the length is exactly 2 it returns a
    sample whose heart rate is byte 1. *)
Theorem C2_bit0_short_payload (data : bytes) (st : State) :
  Z.testbit (byte_at data 0) 0 = true →
  (length data < 3)%nat →
  ((length data < 2)%nat ∧
   eval (parse_heart_rate_data data) st = Ret (PError too_short_msg)) ∨
  (length data = 2%nat ∧
   ∃ s, eval (parse_heart_rate_data data) st = Ret (PSample s) ∧
        heart_rate s = byte_at data 1).
Proof.
  intros Hbit Hlen.
  destruct data as [|b0 [|b1 [|b2 rest]]]; simpl in Hlen; try lia.
  - discriminate Hbit.
  - left. split; [simpl; lia|]. apply eval_parse_short. simpl; lia.
  - right. split; [reflexivity|]. unfold eval. rewrite parse_two.
    eexists; split; reflexivity.
Qed.

Lemma C2_bit0_short_payload_witness :
  ((length [x01; x50] < 2)%nat ∧
   eval (parse_heart_rate_data [x01; x50]) st_new = Ret (PError too_short_msg)) ∨
  (length [x01; x50] = 2%nat ∧
   ∃ s, eval (parse_heart_rate_data [x01; x50]) st_new = Ret (PSample s) ∧
        heart_rate s = byte_at [x01; x50] 1).
Proof.
  apply (C2_bit0_short_payload [x01; x50] st_new); [reflexivity | simpl; lia].
Defined.

(** C3. For every payload of length less than 2 the parser fails with the
    too-short error (and leaves the state as it was). *)
Theorem C3_parse_too_short (data : bytes) (st : State) :
  (length data < 2)%nat →
  parse_heart_rate_data data st = (Ret (PError too_short_msg), st).
Proof. apply parse_short. Qed.

Lemma C3_parse_too_short_witness :
  parse_heart_rate_data [x48] st_new = (Ret (PError too_short_msg), st_new).
Proof. apply (C3_parse_too_short [x48] st_new). simpl; lia. Defined.

(** Two calls on the same payload, one after the other, return samples
    that differ: each carries the time at which the parser read the
    clock. *)
Lemma C4_counterexample :
  eval (parse_heart_rate_data [x00; x48]) st_new =
    Ret (PSample (mk_Sample 72 None 0 "2024-01-01T12:00:00")) ∧
  eval (parse_heart_rate_data [x00; x48])
       (exec (parse_heart_rate_data [x00; x48]) st_new) =
    Ret (PSample (mk_Sample 72 None 0 "2024-01-01T12:00:01")) ∧
  eval (parse_heart_rate_data [x00; x48]) st_new ≠
  eval (parse_heart_rate_data [x00; x48])
       (exec (parse_heart_rate_data [x00; x48]) st_new).
Proof.
  unfold eval, exec. rewrite !parse_two.
  split; [reflexivity|]. split; [reflexivity|]. discriminate.
Qed.

(** C4, amended. The parser changes nothing in the monitor, the files or
    the output, and the heart rate, contact status and flags it returns
    are a function of the payload alone: two calls on the same payload, in
    any two states, agree on them.  The timestamp of a sample is the
    reading of the clock that the parser itself takes, once, when it
    returns a sample; on the error path the state is left untouched. *)
Theorem C4_parse_deterministic_up_to_clock (data : bytes) (st1 st2 : State) :
  ∃ p1 p2,
    eval (parse_heart_rate_data data) st1 = Ret p1 ∧
    eval (parse_heart_rate_data data) st2 = Ret p2 ∧
    same_decoding p1 p2 ∧
    (∀ s, p1 = PSample s →
       timestamp s = isoformat (clock st1 (ticks st1)) ∧
       exec (parse_heart_rate_data data) st1 = tick st1) ∧
    (∀ m, p1 = PError m → exec (parse_heart_rate_data data) st1 = st1).
Proof.
  unfold eval, exec.
  destruct (decide (length data < 2)%nat) as [Hs | Hl].
  - rewrite !parse_short by done.
    eexists _, _. repeat split; try reflexivity; discriminate.
  - destruct data as [|b0 [|b1 [|b2 rest]]]; try (simpl in Hl; lia).
    + rewrite !parse_two. eexists _, _.
      split; [reflexivity|]. split; [reflexivity|].
      split; [repeat split|]. split; [|discriminate].
      intros s [= <-]. split; reflexivity.
    + rewrite !parse_three. eexists _, _.
      split; [reflexivity|]. split; [reflexivity|].
      split; [repeat split|]. split; [|discriminate].
      intros s [= <-]. split; reflexivity.
Qed.

(** C10. For every payload of length at least 2 the parser returns a
    sample, never an error and never an exception - also when bit 0 is set
    and only two bytes are present - and the heart rate lies between 0 and
    65535. *)
Theorem C10_parse_total (data : bytes) (st : State) :
  (2 ≤ length data)%nat →
  ∃ s, eval (parse_heart_rate_data data) st = Ret (PSample s) ∧
       0 ≤ heart_rate s ≤ 65535.
Proof.
  intros Hlen. unfold eval.
  destruct data as [|b0 [|b1 [|b2 rest]]]; try (simpl in Hlen; lia).
  - rewrite parse_two. eexists; split; [reflexivity|].
    cbn [heart_rate]. pose proof (byte_to_Z_range b1). lia.
  - rewrite parse_three. eexists; split; [reflexivity|].
    cbn [heart_rate].
    pose proof (byte_to_Z_range b1). pose proof (byte_to_Z_range b2).
    destruct (Z.testbit (byte_to_Z b0) 0); lia.
Qed.

Lemma C10_parse_total_witness :
  ∃ s, eval (parse_heart_rate_data [x01; xff]) st_new = Ret (PSample s) ∧
       0 ≤ heart_rate s ≤ 65535.
Proof. apply (C10_parse_total [x01; xff] st_new). simpl; lia. Defined.

(** ** Saving a sample, equation by equation *)

Lemma sink_open_lookup h st :
  sink_open h st → (h < length (files st))%nat.
Proof. intros (_ & _ & f & Hf & _). by eapply lookup_lt_Some. Qed.

(** With an open sink: the sample goes to the tail of the history, one row
    is written and flushed, and the history is trimmed. *)
Lemma save_open s h f st :
  csv_writer st = Some h → csv_file st = Some h →
  files st !! h = Some f → f_closed f = false →
  save_heart_rate_data s st =
  (Ret tt,
   mk_State (trimmed (heart_rate_history st ++ [s])) (csv_filename st)
            (Some h) (Some h) (clock st) (S (ticks st))
            (<[h := written (row_of (clock st (ticks st)) s) f]> (files st))
            (stdout st)).
Proof.
  intros Hw Hf Hl Hc.
  assert (h < length (files st))%nat as Hlt by by eapply lookup_lt_Some.
  unfold save_heart_rate_data, datetime_now, csv_writerow, file_flush.
  run_monad. rewrite Hw. simpl. rewrite Hl, Hc. simpl. rewrite Hf. simpl.
  rewrite list_lookup_insert_eq by done. simpl.
  rewrite list_insert_insert_eq.
  unfold trimmed, written, row_of.
  case_bool_decide; unfold set_history, set_files, set_ticks; simpl;
    rewrite Hw, Hf; reflexivity.
Qed.

(** Without a writer: the sample is buffered and nothing is written. *)
Lemma save_no_sink s st :
  csv_writer st = None →
  save_heart_rate_data s st =
  (Ret tt, set_history (trimmed (heart_rate_history st ++ [s])) st).
Proof.
  intros Hw. unfold save_heart_rate_data. run_monad. rewrite Hw. simpl.
  unfold trimmed. case_bool_decide; [reflexivity|].
  unfold set_history. simpl. reflexivity.
Qed.

Lemma sink_open_after_write h f row st hist t out :
  sink_open h st → files st !! h = Some f →
  sink_open h (mk_State hist (csv_filename st) (Some h) (Some h) (clock st) t
                        (<[h := written row f]> (files st)) out).
Proof.
  intros Ho Hf. pose proof (sink_open_lookup _ _ Ho).
  split; [done|]. split; [done|]. simpl.
  exists (written row f). by rewrite list_lookup_insert_eq.
Qed.

Lemma length_trimmed l : (length (trimmed l) ≤ 1000)%nat.
Proof.
  unfold trimmed, slice_last. case_bool_decide; [|lia].
  rewrite length_drop. lia.
Qed.

Lemma trimmed_small l : (length l ≤ 1000)%nat → trimmed l = l.
Proof. intros H. unfold trimmed. case_bool_decide; [lia|done]. Qed.

Lemma trimmed_large l :
  (1000 < length l)%nat →
  trimmed l = slice_last 500 l ∧ length (trimmed l) = 500%nat.
Proof.
  intros H. unfold trimmed, slice_last. case_bool_decide; [|lia].
  split; [done|]. rewrite length_drop. lia.
Qed.

Lemma for_each_app {A} (f : A → M unit) l1 l2 st :
  for_each f (l1 ++ l2) st =
  match for_each f l1 st with
  | (Ret _, st') => for_each f l2 st'
  | (Raise e, st') => (Raise e, st')
  end.
Proof.
  revert st. induction l1 as [|x l1 IH]; intros st; simpl.
  - reflexivity.
  - unfold mbind, M_bind. destruct (f x st) as [[[]|e] st1]; [apply IH|done].
Qed.

(** What one save does to a session whose sink is open. *)
Lemma save_open_step s h st :
  sink_open h st →
  ∃ st', save_heart_rate_data s st = (Ret tt, st') ∧
         sink_open h st' ∧
         file_rows h st' = file_rows h st ++ [row_of (clock st (ticks st)) s] ∧
         flushed_rows h st' = file_rows h st' ∧
         clock st' = clock st ∧ ticks st' = S (ticks st) ∧
         stdout st' = stdout st ∧
         heart_rate_history st' = trimmed (heart_rate_history st ++ [s]).
Proof.
  intros Ho. pose proof Ho as (Hw & Hf & f & Hl & Hc).
  pose proof (sink_open_lookup _ _ Ho) as Hlt.
  eexists. split; [by apply (save_open s h f)|].
  split; [by apply sink_open_after_write|].
  unfold file_rows, flushed_rows. cbn [files clock ticks stdout heart_rate_history].
  rewrite list_lookup_insert_eq, Hl by done.
  unfold f_rows, written. cbn [f_flushed f_buffer].
  rewrite app_nil_r, app_assoc. done.
Qed.

(** What one save does when it cannot raise. *)
Lemma save_ok_step s st :
  sink_ok st →
  ∃ st', save_heart_rate_data s st = (Ret tt, st') ∧ sink_ok st' ∧
         heart_rate_history st' = trimmed (heart_rate_history st ++ [s]).
Proof.
  intros [Hn | [h Ho]].
  - eexists. split; [by apply save_no_sink|]. split; [by left|done].
  - destruct (save_open_step s h st Ho) as (st' & Hs & Ho' & _ & _ & _ & _ & _ & Hh).
    exists st'. split; [done|]. split; [right; eauto|done].
Qed.

(** A run of saves on an open sink: one row per sample, in order. *)
Lemma saves_open samples : ∀ h st,
  sink_open h st →
  ∃ st', for_each save_heart_rate_data samples st = (Ret tt, st') ∧
         sink_open h st' ∧
         file_rows h st' =
           file_rows h st ++ rows_of (clock st) (ticks st) samples ∧
         heart_rate_history st' `suffix_of` heart_rate_history st ++ samples.
Proof.
  induction samples as [|s samples IH]; intros h st Ho.
  - exists st. simpl. rewrite !app_nil_r. done.
  - destruct (save_open_step s h st Ho)
      as (st1 & Hs & Ho1 & Hr1 & _ & Hc1 & Ht1 & _ & Hh1).
    destruct (IH h st1 Ho1) as (st' & Hs' & Ho' & Hr' & Hh').
    exists st'. simpl. unfold mbind, M_bind. rewrite Hs.
    split; [done|]. split; [done|]. split.
    + rewrite Hr', Hr1, Hc1, Ht1, <- app_assoc. done.
    + etrans; [exact Hh'|]. rewrite Hh1.
      replace (heart_rate_history st ++ s :: samples)
        with ((heart_rate_history st ++ [s]) ++ samples)
        by (by rewrite <- app_assoc).
      apply suffix_app.
      unfold trimmed, slice_last. case_bool_decide; [apply suffix_drop|done].
Qed.

(** A run of saves that never fills the buffer keeps every sample. *)
Lemma saves_small samples : ∀ st,
  sink_ok st →
  (length (heart_rate_history st ++ samples) ≤ 1000)%nat →
  ∃ st', for_each save_heart_rate_data samples st = (Ret tt, st') ∧
         sink_ok st' ∧
         heart_rate_history st' = heart_rate_history st ++ samples.
Proof.
  induction samples as [|s samples IH]; intros st Hok Hlen.
  - exists st. simpl. by rewrite app_nil_r.
  - destruct (save_ok_step s st Hok) as (st1 & Hs & Hok1 & Hh1).
    rewrite trimmed_small in Hh1
      by (rewrite !length_app in *; simpl in *; lia).
    destruct (IH st1 Hok1) as (st' & Hs' & Hok' & Hh').
    { rewrite Hh1, <- app_assoc. done. }
    exists st'. simpl. unfold mbind, M_bind. rewrite Hs.
    split; [done|]. split; [done|]. rewrite Hh', Hh1, <- app_assoc. done.
Qed.

Lemma rows_of_length clk t samples :
  length (rows_of clk t samples) = length samples.
Proof. revert t. induction samples; intros t; simpl; [done|by rewrite IHsamples]. Qed.

Lemma rows_of_rates clk t samples :
  (λ r : Row, r !! 1%nat) <$> rows_of clk t samples =
  (λ s, Some (PInt (heart_rate s))) <$> samples.
Proof.
  revert t. induction samples as [|s samples IH]; intros t; simpl; [done|].
  by rewrite IH.
Qed.

Lemma rows_of_times clk t samples i s :
  samples !! i = Some s →
  rows_of clk t samples !! i = Some (row_of (clk (t + i)%nat) s).
Proof.
  revert t i. induction samples as [|s' samples IH]; intros t i; [done|].
  destruct i as [|i]; simpl.
  - intros [= ->]. by rewrite Nat.add_0_r.
  - intros H. rewrite (IH (S t) i H). do 3 f_equal. lia.
Qed.

(** ** Claims about the history buffer and the sink *)

(** The bound of the history when the save returns normally, that is with
    no writer or with the writer's file open.  After such a save the
    history holds at most 1000 samples.  When the append makes it exceed
    1000, exactly the last 500 entries (the most recent ones) survive, in
    their order; otherwise nothing is dropped.  Saving 1001 samples into
    an empty history leaves 500 entries: samples number 502 to 1001, in
    order. *)
Theorem history_bound_when_save_returns (st : State) (s : Sample)
    (samples : list Sample) :
  sink_ok st →
  (eval (save_heart_rate_data s) st = Ret tt ∧
   (length (heart_rate_history (exec (save_heart_rate_data s) st)) ≤ 1000)%nat ∧
   heart_rate_history (exec (save_heart_rate_data s) st)
     `suffix_of` heart_rate_history st ++ [s] ∧
   ((1000 < length (heart_rate_history st ++ [s]))%nat →
      heart_rate_history (exec (save_heart_rate_data s) st) =
        slice_last 500 (heart_rate_history st ++ [s]) ∧
      length (heart_rate_history (exec (save_heart_rate_data s) st)) = 500%nat) ∧
   ((length (heart_rate_history st ++ [s]) ≤ 1000)%nat →
      heart_rate_history (exec (save_heart_rate_data s) st) =
        heart_rate_history st ++ [s])) ∧
  (heart_rate_history st = [] → length samples = 1001%nat →
   eval (for_each save_heart_rate_data samples) st = Ret tt ∧
   heart_rate_history (exec (for_each save_heart_rate_data samples) st) =
     drop 501 samples ∧
   length (heart_rate_history (exec (for_each save_heart_rate_data samples) st))
     = 500%nat).
Proof.
  intros Hok. split.
  - destruct (save_ok_step s st Hok) as (st' & Hs & _ & Hh).
    unfold eval, exec. rewrite Hs. cbn [fst snd]. rewrite Hh.
    split; [done|]. split; [apply length_trimmed|]. split.
    + unfold trimmed, slice_last. case_bool_decide; [apply suffix_drop|done].
    + split; [apply trimmed_large | apply trimmed_small].
  - intros Hempty Hlen.
    destruct (exists_last (l := samples)) as (front & x & ->).
    { intros ->. discriminate Hlen. }
    rewrite length_app in Hlen. simpl in Hlen.
    destruct (saves_small front st Hok) as (st1 & Hs1 & Hok1 & Hh1).
    { rewrite Hempty. simpl. lia. }
    destruct (save_ok_step x st1 Hok1) as (st' & Hs & _ & Hh).
    unfold eval, exec. rewrite for_each_app, Hs1. simpl.
    unfold mbind, M_bind. rewrite Hs. cbn [fst snd mret M_ret].
    rewrite Hh, Hh1, Hempty. simpl.
    destruct (trimmed_large (front ++ [x])) as [-> Hl].
    { rewrite length_app. simpl. lia. }
    split; [done|]. unfold slice_last.
    rewrite length_drop, !length_app. simpl.
    replace (length front + 1 - 500)%nat with 501%nat by lia.
    split; [done|lia].
Qed.

Lemma sink_ok_streaming : sink_ok st_streaming.
Proof.
  right. exists 0%nat. split; [reflexivity|]. split; [reflexivity|].
  eexists. split; reflexivity.
Qed.

Lemma history_bound_when_save_returns_witness :
  let s := mk_Sample 72 None 0 "" in
  let samples := (λ i, mk_Sample (Z.of_nat i) None 0 "") <$> seq 1 1001 in
  (length (heart_rate_history (exec (save_heart_rate_data s) st_streaming))
     ≤ 1000)%nat ∧
  heart_rate_history (exec (for_each save_heart_rate_data samples) st_streaming)
    = drop 501 samples.
Proof.
  intros s samples.
  destruct (history_bound_when_save_returns st_streaming s samples
              sink_ok_streaming) as [(_ & Hb & _) Hseq].
  split; [exact Hb|].
  destruct Hseq as (_ & Hd & _).
  - reflexivity.
  - unfold samples. rewrite length_fmap, length_seq. reflexivity.
  - exact Hd.
Defined.

(** C5 fails on the code.  The claim: after every append the history holds
    at most 1000 samples.  The code appends, then writes, then trims; when
    the write raises, the trimming is never reached.  On a monitor that
    opened its file, saved 1000 samples and closed the file, one more save
    raises [ValueError] and leaves 1001 samples in the history. *)
Theorem C5_cap_skipped_when_write_raises :
  let samples := (λ i, mk_Sample (Z.of_nat i) None 0 "") <$> seq 1 1000 in
  let st := exec (init_csv_file ;;
                  for_each save_heart_rate_data samples ;;
                  close_csv_file) st_new in
  length (heart_rate_history st) = 1000%nat ∧
  eval (save_heart_rate_data (mk_Sample 72 None 0 "")) st =
    Raise (ValueError closed_msg) ∧
  length (heart_rate_history
            (exec (save_heart_rate_data (mk_Sample 72 None 0 "")) st))
    = 1001%nat.
Proof. vm_compute. repeat split. Qed.

(** Opening the sink: a fresh file that holds the header row only. *)
Lemma init_csv_file_eq st :
  init_csv_file st =
  (Ret tt,
   mk_State (heart_rate_history st)
            (Some (session_filename (clock st (ticks st))))
            (Some (length (files st))) (Some (length (files st)))
            (clock st) (S (ticks st))
            (files st ++
               [mk_File (session_filename (clock st (ticks st)))
                        [header_row] [] [] false])
            (stdout st ++
               ["数据将保存到: " +:+ session_filename (clock st (ticks st))])).
Proof.
  unfold init_csv_file, datetime_now, open_w, csv_writerow, print.
  run_monad. rewrite list_lookup_middle by done. simpl.
  replace (length (files st)) with (length (files st) + 0)%nat at 1 by lia.
  rewrite insert_app_r. reflexivity.
Qed.

Lemma sink_open_init st :
  sink_open (length (files st)) (exec init_csv_file st).
Proof.
  unfold exec. rewrite init_csv_file_eq. cbn [snd].
  split; [done|]. split; [done|]. cbn [files].
  eexists. split; [by apply list_lookup_middle|done].
Qed.

Lemma strftime_HMS_shape d :
  strftime_HMS d =
  String (digit (dt_hour d / 10)) (String (digit (dt_hour d))
  (String ":"
  (String (digit (dt_minute d / 10)) (String (digit (dt_minute d))
  (String ":"
  (String (digit (dt_second d / 10)) (String (digit (dt_second d)) ""))))))).
Proof. reflexivity. Qed.

(** A run of saves on a monitor without a writer: the samples are
    buffered, and neither a file nor the clock nor the output is touched. *)
Lemma saves_no_writer samples : ∀ st,
  csv_writer st = None →
  ∃ st', for_each save_heart_rate_data samples st = (Ret tt, st') ∧
         csv_writer st' = None ∧ files st' = files st ∧
         ticks st' = ticks st ∧ stdout st' = stdout st ∧
         heart_rate_history st' `suffix_of` heart_rate_history st ++ samples.
Proof.
  induction samples as [|s samples IH]; intros st Hw.
  - exists st. simpl. by rewrite app_nil_r.
  - destruct (IH (set_history (trimmed (heart_rate_history st ++ [s])) st))
      as (st' & Hs' & Hw' & Hf' & Ht' & Ho' & Hh'); [done|].
    exists st'. simpl. unfold mbind, M_bind.
    rewrite save_no_sink by done. split; [done|].
    split; [done|]. split; [done|]. split; [done|]. split; [done|].
    etrans; [exact Hh'|]. cbn [heart_rate_history set_history].
    replace (heart_rate_history st ++ s :: samples)
      with ((heart_rate_history st ++ [s]) ++ samples)
      by (by rewrite <- app_assoc).
    apply suffix_app.
    unfold trimmed, slice_last. case_bool_decide; [apply suffix_drop|done].
Qed.

(** A fresh monitor, before [init_csv_file]: the sample is accepted into
    the history and no sink receives it - there is not even a file. *)
Lemma C6_counterexample :
  eval (save_heart_rate_data (mk_Sample 72 None 0 "a")) st_new = Ret tt ∧
  heart_rate_history (exec (save_heart_rate_data (mk_Sample 72 None 0 "a"))
                           st_new) = [mk_Sample 72 None 0 "a"] ∧
  files (exec (save_heart_rate_data (mk_Sample 72 None 0 "a")) st_new) = [].
Proof. vm_compute. repeat split. Qed.

(** C6, amended. While the sink is open - [init_csv_file] has created the
    writer and its file has not been closed - a run of saves appends every
    sample to the history and writes one row per sample to the sink, in the
    order of arrival: row number [i] carries the heart rate of sample
    number [i]; the history holds, in the same order, a final segment of
    what was appended.  When no writer was created, the samples are
    appended to the history in the same way and nothing is written. *)
Theorem C6_sink_receives_all (samples : list Sample) (h : nat) (st : State) :
  (sink_open h st →
   eval (for_each save_heart_rate_data samples) st = Ret tt ∧
   file_rows h (exec (for_each save_heart_rate_data samples) st) =
     file_rows h st ++ rows_of (clock st) (ticks st) samples ∧
   length (rows_of (clock st) (ticks st) samples) = length samples ∧
   (∀ i s, samples !! i = Some s →
      rows_of (clock st) (ticks st) samples !! i =
      Some [PStr (strftime_HMS (clock st (ticks st + i)%nat));
            PInt (heart_rate s)]) ∧
   heart_rate_history (exec (for_each save_heart_rate_data samples) st)
     `suffix_of` heart_rate_history st ++ samples) ∧
  (csv_writer st = None →
   eval (for_each save_heart_rate_data samples) st = Ret tt ∧
   files (exec (for_each save_heart_rate_data samples) st) = files st ∧
   heart_rate_history (exec (for_each save_heart_rate_data samples) st)
     `suffix_of` heart_rate_history st ++ samples).
Proof.
  split.
  - intros Ho.
    destruct (saves_open samples h st Ho) as (st' & Hs & _ & Hr & Hh).
    unfold eval, exec. rewrite Hs. cbn [fst snd].
    split; [done|]. split; [done|]. split; [apply rows_of_length|].
    split; [|done]. intros i s Hi. by apply rows_of_times.
  - intros Hw.
    destruct (saves_no_writer samples st Hw) as (st' & Hs & _ & Hf & _ & _ & Hh).
    unfold eval, exec. rewrite Hs. cbn [fst snd]. done.
Qed.

Lemma C6_sink_receives_all_witness :
  let samples := [mk_Sample 72 None 0 "a"; mk_Sample 80 (Some true) 6 "b"] in
  file_rows 0 (exec (for_each save_heart_rate_data samples) st_streaming) =
  [[PStr "time"; PStr "rate"];
   [PStr "12:00:01"; PInt 72];
   [PStr "12:00:02"; PInt 80]] ∧
  files (exec (for_each save_heart_rate_data samples) st_new) = [].
Proof.
  intros samples. split.
  - destruct (C6_sink_receives_all samples 0 st_streaming) as [Hopen _].
    destruct Hopen as (_ & Hr & _).
    + split; [reflexivity|]. split; [reflexivity|].
      eexists. split; reflexivity.
    + rewrite Hr. reflexivity.
  - destruct (C6_sink_receives_all samples 0 st_new) as [_ Hnone].
    destruct Hnone as (_ & Hf & _); [reflexivity|exact Hf].
Defined.

(** What [os.fsync] would do for the open file of the sink: everything
    flushed so far becomes durable. *)
Lemma os_fsync_forces h st :
  sink_open h st →
  eval (os_fsync h) st = Ret tt ∧
  synced_rows h (exec (os_fsync h) st) = flushed_rows h st.
Proof.
  intros Ho. pose proof (sink_open_lookup _ _ Ho) as Hlt.
  destruct Ho as (_ & _ & f & Hl & Hc).
  unfold eval, exec, os_fsync, synced_rows, flushed_rows.
  rewrite Hl, Hc. cbn [fst snd files set_files].
  by rewrite list_lookup_insert_eq.
Qed.

(** After a save on the open file of a session, the row is with the
    operating system and not on stable storage: the save has flushed, it
    has not synced.  A call of [os.fsync] would have made it durable. *)
Lemma C8_counterexample :
  eval (save_heart_rate_data (mk_Sample 72 None 0 "")) st_streaming = Ret tt ∧
  flushed_rows 0
    (exec (save_heart_rate_data (mk_Sample 72 None 0 "")) st_streaming) =
    [[PStr "time"; PStr "rate"]; [PStr "12:00:01"; PInt 72]] ∧
  synced_rows 0
    (exec (save_heart_rate_data (mk_Sample 72 None 0 "")) st_streaming) = [] ∧
  synced_rows 0
    (exec (save_heart_rate_data (mk_Sample 72 None 0 "") ;; os_fsync 0)
          st_streaming) =
    [[PStr "time"; PStr "rate"]; [PStr "12:00:01"; PInt 72]].
Proof. vm_compute. repeat split. Qed.

(** C8, amended. Opening the sink creates the session's file and writes the
    header row [time,rate] to it before anything else.  On an open sink
    every save returns normally, appends exactly one row - the time of day
    read from the clock during the save, printed as HH:MM:SS, and the
    integer heart rate - and calls [flush] before it returns, so that every
    row of the file has been handed to the operating system.  Nothing is
    forced to stable storage: the rows that are durable are those that
    were durable before. *)
Theorem C8_sink_rows (st : State) (h : nat) (s : Sample) (samples : list Sample) :
  (eval init_csv_file st = Ret tt ∧
   sink_open (length (files st)) (exec init_csv_file st) ∧
   file_rows (length (files st)) (exec init_csv_file st) =
     [[PStr "time"; PStr "rate"]] ∧
   file_rows (length (files st))
     (exec (init_csv_file ;; for_each save_heart_rate_data samples) st) =
     [PStr "time"; PStr "rate"] ::
     rows_of (clock st) (S (ticks st)) samples) ∧
  (sink_open h st →
   eval (save_heart_rate_data s) st = Ret tt ∧
   file_rows h (exec (save_heart_rate_data s) st) =
     file_rows h st ++
     [[PStr (strftime_HMS (clock st (ticks st))); PInt (heart_rate s)]] ∧
   flushed_rows h (exec (save_heart_rate_data s) st) =
     file_rows h (exec (save_heart_rate_data s) st) ∧
   synced_rows h (exec (save_heart_rate_data s) st) = synced_rows h st ∧
   sink_open h (exec (save_heart_rate_data s) st)) ∧
  (∀ d, ∃ h1 h2 m1 m2 s1 s2 : ascii,
     strftime_HMS d =
     String h1 (String h2 (String ":" (String m1 (String m2 (String ":"
       (String s1 (String s2 ""))))))) ∧
     String.length (strftime_HMS d) = 8%nat).
Proof.
  split; [|split].
  - pose proof (sink_open_init st) as Ho.
    unfold eval, exec in *. unfold mbind, M_bind.
    rewrite init_csv_file_eq in *. cbn [fst snd] in *.
    split; [done|]. split; [done|]. split.
    + unfold file_rows. cbn [files]. by rewrite list_lookup_middle.
    + destruct (saves_open samples _ _ Ho) as (st' & Hs & _ & Hr & _).
      rewrite Hs. cbn [snd]. rewrite Hr.
      unfold file_rows. cbn [files clock ticks].
      by rewrite list_lookup_middle.
  - intros Ho.
    destruct (save_open_step s h st Ho) as (st' & Hs & Ho' & Hr & Hf & _).
    pose proof (sink_open_lookup _ _ Ho) as Hlt.
    pose proof Ho as (Hw & Hcf & f & Hl & Hc).
    pose proof (save_open s h f st Hw Hcf Hl Hc) as Heq.
    unfold eval, exec. rewrite Hs. cbn [fst snd].
    split; [done|]. split; [done|]. split; [done|]. split; [|done].
    rewrite Hs in Heq. injection Heq as ->.
    unfold synced_rows. cbn [files].
    by rewrite list_lookup_insert_eq, Hl.
  - intros d. rewrite strftime_HMS_shape. eexists _, _, _, _, _, _. done.
Qed.

Lemma C8_sink_rows_witness :
  file_rows 0 (exec (save_heart_rate_data (mk_Sample 72 None 0 "")) st_streaming)
  = [[PStr "time"; PStr "rate"]; [PStr "12:00:01"; PInt 72]] ∧
  flushed_rows 0 (exec (save_heart_rate_data (mk_Sample 72 None 0 "")) st_streaming)
  = [[PStr "time"; PStr "rate"]; [PStr "12:00:01"; PInt 72]] ∧
  synced_rows 0 (exec (save_heart_rate_data (mk_Sample 72 None 0 "")) st_streaming)
  = [].
Proof.
  destruct (C8_sink_rows st_streaming 0 (mk_Sample 72 None 0 "") [])
    as (_ & Hw & _).
  destruct Hw as (_ & Hr & Hf & Hsy & _).
  - split; [reflexivity|]. split; [reflexivity|].
    eexists. split; reflexivity.
  - rewrite Hf, Hr, Hsy. repeat split.
Defined.

(** ** The notification handler *)

Lemma sink_open_ext h st st' :
  csv_writer st' = csv_writer st → csv_file st' = csv_file st →
  files st' = files st → sink_open h st → sink_open h st'.
Proof. unfold sink_open. intros -> -> ->. done. Qed.

Lemma parse_error_short data st msg :
  eval (parse_heart_rate_data data) st = Ret (PError msg) →
  (length data < 2)%nat.
Proof.
  intros He. destruct (decide (length data < 2)%nat) as [|Hl]; [done|].
  destruct (parse_long data st) as (s & Hs & _); [lia|].
  unfold eval in He. rewrite Hs in He. discriminate.
Qed.

(** A payload that does not parse leaves everything as it was: nothing is
    buffered, written or printed, and the clock is not even read. *)
Lemma handler_malformed data st :
  (length data < 2)%nat → notification_handler data st = (Ret tt, st).
Proof.
  intros H. unfold notification_handler, try_except, mbind, M_bind.
  rewrite parse_short by done. reflexivity.
Qed.

(** A payload that parses is buffered, written and reported. *)
Lemma handler_wellformed data h st :
  (2 ≤ length data)%nat → sink_open h st →
  ∃ s st',
    parse_heart_rate_data data st = (Ret (PSample s), tick st) ∧
    notification_handler data st = (Ret tt, st') ∧
    sink_open h st' ∧
    heart_rate_history st' = trimmed (heart_rate_history st ++ [s]) ∧
    file_rows h st' = file_rows h st ++ [row_of (clock st (S (ticks st))) s] ∧
    stdout st' =
      stdout st ++
      [strftime_HMS (clock st (S (S (ticks st)))) +:+ " 心率: " +:+
       pretty (heart_rate s) +:+ " BPM"].
Proof.
  intros Hlen Ho.
  destruct (parse_long data st Hlen) as (s & Hp & _).
  assert (sink_open h (tick st)) as Ho1 by (by eapply sink_open_ext).
  destruct (save_open_step s h (tick st) Ho1)
    as (st1 & Hs & Ho2 & Hr & _ & Hc & Ht & Hout & Hh).
  exists s. eexists. split; [exact Hp|].
  split.
  { unfold notification_handler, try_except, mbind, M_bind.
    rewrite Hp, Hs. unfold datetime_now, print, modify. reflexivity. }
  cbn [heart_rate_history files stdout set_stdout set_ticks clock ticks].
  split; [by eapply sink_open_ext|].
  split; [exact Hh|]. split; [exact Hr|].
  unfold file_rows. cbn [files]. rewrite Hout, Hc, Ht. reflexivity.
Qed.

(** ** Claim about malformed notifications *)

(** A one-byte notification does not parse, and the handler prints nothing
    for it: the output is what it was before. *)
Lemma C9_counterexample :
  eval (parse_heart_rate_data [x48]) st_streaming = Ret (PError too_short_msg) ∧
  notification_handler [x48] st_streaming = (Ret tt, st_streaming) ∧
  stdout (exec (notification_handler [x48]) st_streaming) =
  stdout st_streaming.
Proof.
  split; [apply eval_parse_short; simpl; lia|].
  unfold exec. rewrite handler_malformed by (simpl; lia). done.
Qed.

(** C9, amended. A notification that fails to parse is skipped silently:
    the handler returns normally and the whole state is unchanged - no
    sample is appended, no row is written, nothing is printed.  Hence a
    streaming session with an empty history that receives one malformed
    and one well-formed notification, in either order, ends with exactly
    one more row in the sink and a history of length 1. *)
Theorem C9_malformed_skipped (bad good : bytes) (msg : string) (s : Sample)
    (h : nat) (st : State) :
  eval (parse_heart_rate_data bad) st = Ret (PError msg) →
  notification_handler bad st = (Ret tt, st) ∧
  (eval (parse_heart_rate_data good) st = Ret (PSample s) →
   sink_open h st → heart_rate_history st = [] →
   ∀ ns, ns = [bad; good] ∨ ns = [good; bad] →
     eval (stream ns) st = Ret tt ∧
     length (heart_rate_history (exec (stream ns) st)) = 1%nat ∧
     heart_rate <$> heart_rate_history (exec (stream ns) st) = [heart_rate s] ∧
     ∃ t, file_rows h (exec (stream ns) st) =
          file_rows h st ++ [[PStr t; PInt (heart_rate s)]]).
Proof.
  intros Hbad. pose proof (parse_error_short _ _ _ Hbad) as Hshort.
  split; [by apply handler_malformed|].
  intros Hgood Ho Hempty ns Hns.
  assert (2 ≤ length good)%nat as Hlen.
  { destruct (decide (length good < 2)%nat) as [Hl|]; [|lia].
    rewrite eval_parse_short in Hgood by done. discriminate. }
  destruct (handler_wellformed good h st Hlen Ho)
    as (s' & st' & Hp & Hh & _ & Hhist & Hrows & _).
  assert (s' = s) as ->.
  { unfold eval in Hgood. rewrite Hp in Hgood. by injection Hgood. }
  rewrite Hempty in Hhist. simpl in Hhist.
  rewrite trimmed_small in Hhist by (simpl; lia).
  unfold stream, eval, exec.
  destruct Hns as [-> | ->]; simpl; unfold mbind, M_bind, mret, M_ret.
  - rewrite handler_malformed, Hh by done. cbn [fst snd].
    rewrite Hhist, Hrows. split; [done|]. split; [done|]. split; [done|].
    eexists. reflexivity.
  - rewrite Hh, handler_malformed by done. cbn [fst snd].
    rewrite Hhist, Hrows. split; [done|]. split; [done|]. split; [done|].
    eexists. reflexivity.
Qed.

Lemma C9_malformed_skipped_witness :
  notification_handler [x48] st_streaming = (Ret tt, st_streaming) ∧
  length (heart_rate_history (exec (stream [[x48]; [x06; x50]]) st_streaming))
    = 1%nat ∧
  ∃ t, file_rows 0 (exec (stream [[x48]; [x06; x50]]) st_streaming) =
       file_rows 0 st_streaming ++ [[PStr t; PInt 80]].
Proof.
  destruct (C9_malformed_skipped [x48] [x06; x50] too_short_msg
              (mk_Sample 80 (Some true) 6 "2024-01-01T12:00:01")
              0 st_streaming) as [Hskip Hrun].
  - reflexivity.
  - split; [exact Hskip|].
    destruct (Hrun eq_refl) with (ns := [[x48]; [x06; x50]])
      as (_ & Hlen & _ & Hrow).
    + split; [reflexivity|]. split; [reflexivity|].
      eexists. split; reflexivity.
    + reflexivity.
    + left. reflexivity.
    + split; [exact Hlen | exact Hrow].
Defined.

(** ** Device discovery *)

(** The callbacks of a scan window extend the dict by the devices that the
    specification's registry takes, in the same order. *)
Lemma deliver_first_seen ads : ∀ d st,
  ∃ st', deliver ads d st =
         (Ret (d ++ (item_of <$> first_seen d.*1 ads)), st').
Proof.
  induction ads as [|[device adv] ads IH]; intros d st.
  - exists st. simpl. by rewrite app_nil_r.
  - simpl. unfold detection_callback, dict_contains, mbind, M_bind.
    destruct (decide (HRS_UUID ∈ service_uuids adv)) as [Hin | Hout].
    + rewrite (bool_decide_eq_true_2 _ Hin).
      destruct (decide (address device ∈ d.*1)) as [Hseen | Hnew].
      * rewrite (bool_decide_eq_true_2 _ Hseen). simpl.
        rewrite bool_decide_eq_false_2 by tauto. apply IH.
      * rewrite (bool_decide_eq_false_2 _ Hnew). simpl.
        rewrite bool_decide_eq_true_2 by tauto.
        unfold dict_setitem, dict_contains.
        rewrite (bool_decide_eq_false_2 _ Hnew).
        edestruct (IH (d ++ [item_of device])) as (st' & ->).
        exists st'. rewrite fmap_app. simpl.
        rewrite <- app_assoc. reflexivity.
    + rewrite (bool_decide_eq_false_2 _ Hout).
      rewrite bool_decide_eq_false_2 by tauto. apply IH.
Qed.

Lemma scan_first_seen ads st :
  eval (scan_for_heart_rate_devices ads) st = Ret (first_seen [] ads).
Proof.
  unfold eval, scan_for_heart_rate_devices, print, modify, mbind, M_bind.
  edestruct (deliver_first_seen ads []) as (st' & ->). simpl.
  unfold dict_values, item_of. rewrite <- list_fmap_compose.
  f_equal. apply list_fmap_id.
Qed.

Lemma first_seen_elem ads : ∀ seen x,
  x ∈ first_seen seen ads →
  (address x ∉ seen) ∧
  ∃ adv, (x, adv) ∈ ads ∧ HRS_UUID ∈ service_uuids adv.
Proof.
  induction ads as [|[device adv] ads IH]; intros seen x; simpl.
  - intros H. by apply elem_of_nil in H.
  - case_bool_decide as Hc.
    + intros [-> | Hx]%elem_of_cons.
      * split; [tauto|]. exists adv. split; [left|tauto].
      * destruct (IH _ _ Hx) as (Hn & adv' & Hin & Hu).
        apply not_elem_of_app in Hn as [Hn _].
        split; [done|]. exists adv'. split; [by right|done].
    + intros Hx. destruct (IH _ _ Hx) as (Hn & adv' & Hin & Hu).
      split; [done|]. exists adv'. split; [by right|done].
Qed.

Lemma first_seen_NoDup ads : ∀ seen, NoDup (address <$> first_seen seen ads).
Proof.
  induction ads as [|[device adv] ads IH]; intros seen; simpl.
  - constructor.
  - case_bool_decide; [|apply IH]. simpl. apply NoDup_cons. split; [|apply IH].
    intros (x & Heq & Hx)%list_elem_of_fmap.
    apply first_seen_elem in Hx as [Hn _].
    apply Hn, elem_of_app. right. rewrite Heq. left.
Qed.

Lemma first_seen_complete ads : ∀ seen x adv,
  (x, adv) ∈ ads → HRS_UUID ∈ service_uuids adv →
  address x ∈ seen ∨ address x ∈ address <$> first_seen seen ads.
Proof.
  induction ads as [|[device adv0] ads IH]; intros seen x adv Hin Hu.
  - by apply elem_of_nil in Hin.
  - simpl. apply elem_of_cons in Hin as [[= -> ->] | Hin].
    + case_bool_decide as Hc.
      * right. simpl. left.
      * left. destruct (decide (address device ∈ seen)); [done|tauto].
    + case_bool_decide as Hc.
      * destruct (IH (seen ++ [address device]) x adv Hin Hu) as [Hs | Hr].
        -- apply elem_of_app in Hs as [Hs | Hs]; [by left|].
           apply list_elem_of_singleton in Hs. right. simpl. rewrite Hs. left.
        -- right. simpl. by right.
      * by apply (IH seen x adv).
Qed.

Lemma filter_address_none (a : string) (l : list BLEDevice) :
  a ∉ address <$> l → filter (λ x, address x = a) l = [].
Proof.
  induction l as [|y l IH]; [done|]. simpl.
  intros [Hy Hl]%not_elem_of_cons.
  rewrite filter_cons_False by congruence. by apply IH.
Qed.

Lemma first_seen_first pre : ∀ seen d adv post,
  HRS_UUID ∈ service_uuids adv → address d ∉ seen →
  (∀ a, a ∈ pre → accepted a → address a.1 ≠ address d) →
  filter (λ x, address x = address d)
         (first_seen seen (pre ++ (d, adv) :: post)) = [d].
Proof.
  induction pre as [|[d0 adv0] pre IH]; intros seen d adv post Hu Hn Hpre.
  - simpl. rewrite bool_decide_eq_true_2 by tauto.
    rewrite filter_cons_True by done. f_equal.
    apply filter_address_none.
    intros (x & Heq & Hx)%list_elem_of_fmap.
    apply first_seen_elem in Hx as [Hx _].
    apply Hx, elem_of_app. right. rewrite Heq. left.
  - simpl. case_bool_decide as Hc.
    + assert (address d0 ≠ address d) as Hne.
      { apply (Hpre (d0, adv0)); [left|]. unfold accepted. simpl. tauto. }
      rewrite filter_cons_False by done.
      apply IH; [done| |].
      * apply not_elem_of_app. split; [done|].
        intros Heq%list_elem_of_singleton. congruence.
      * intros a Ha. apply Hpre. by right.
    + apply IH; [done|done|]. intros a Ha. apply Hpre. by right.
Qed.

Lemma first_seen_sublist ads : ∀ seen,
  first_seen seen ads `sublist_of` (filter accepted ads).*1.
Proof.
  induction ads as [|[device adv] ads IH]; intros seen; simpl.
  - constructor.
  - destruct (decide (HRS_UUID ∈ service_uuids adv)) as [Hin | Hout].
    + rewrite filter_cons_True by done. simpl.
      case_bool_decide; [apply sublist_skip | apply sublist_cons]; apply IH.
    + rewrite filter_cons_False by done.
      rewrite bool_decide_eq_false_2 by tauto. apply IH.
Qed.

(** ** Claim about the device registry *)

(** C7. For every stream of advertisements the scan returns a list of
    devices such that: every device listed was advertised with the Heart
    Rate Service UUID among its service ids; no two entries share an
    address, and every address that was accepted has an entry; the entry of
    an address is the device of its first accepted advertisement, whatever
    later advertisements of that address carry; and the entries follow the
    order of discovery.  The list is the one the registry of the
    specification computes. *)
Theorem C7_device_registry (ads : list Advertisement) (st : State) :
  ∃ results,
    eval (scan_for_heart_rate_devices ads) st = Ret results ∧
    results = first_seen [] ads ∧
    (∀ d, d ∈ results →
       ∃ adv, (d, adv) ∈ ads ∧ HRS_UUID ∈ service_uuids adv) ∧
    NoDup (address <$> results) ∧
    (∀ d adv, (d, adv) ∈ ads → HRS_UUID ∈ service_uuids adv →
       address d ∈ address <$> results) ∧
    (∀ pre d adv post,
       ads = pre ++ (d, adv) :: post →
       HRS_UUID ∈ service_uuids adv →
       (∀ a, a ∈ pre → accepted a → address a.1 ≠ address d) →
       filter (λ x, address x = address d) results = [d]) ∧
    results `sublist_of` (filter accepted ads).*1.
Proof.
  exists (first_seen [] ads).
  split; [apply scan_first_seen|]. split; [done|]. split.
  { intros d Hd. by destruct (first_seen_elem _ _ _ Hd) as [_ ?]. }
  split; [apply first_seen_NoDup|]. split.
  { intros d adv Hin Hu.
    destruct (first_seen_complete ads [] d adv Hin Hu) as [H|H]; [|done].
    by apply elem_of_nil in H. }
  split; [|apply first_seen_sublist].
  intros pre d adv post -> Hu Hpre.
  apply first_seen_first; [done| |done]. apply not_elem_of_nil.
Qed.

(** Two advertisements of one address under different names, around one
    that lacks the service: a single entry, with the first name. *)
Example scan_same_address_twice :
  eval (scan_for_heart_rate_devices
          [(mk_BLEDevice "AA:BB" (Some "Band"), mk_AdvertisementData [HRS_UUID]);
           (mk_BLEDevice "CC:DD" (Some "Lamp"), mk_AdvertisementData []);
           (mk_BLEDevice "AA:BB" (Some "Mi Band 7"),
            mk_AdvertisementData [HRM_UUID; HRS_UUID])])
       st_new =
  Ret [mk_BLEDevice "AA:BB" (Some "Band")].
Proof. vm_compute. reflexivity. Qed.

Lemma C7_device_registry_witness :
  ∃ results,
    eval (scan_for_heart_rate_devices
            [(mk_BLEDevice "CC:DD" (Some "Lamp"), mk_AdvertisementData []);
             (mk_BLEDevice "AA:BB" (Some "Band"), mk_AdvertisementData [HRS_UUID]);
             (mk_BLEDevice "AA:BB" (Some "Mi Band 7"),
              mk_AdvertisementData [HRM_UUID; HRS_UUID])])
         st_new = Ret results ∧
    filter (λ x, address x = "AA:BB") results =
    [mk_BLEDevice "AA:BB" (Some "Band")].
Proof.
  edestruct C7_device_registry as (results & He & _ & _ & _ & _ & Hfirst & _).
  exists results. split; [exact He|].
  apply (Hfirst [(mk_BLEDevice "CC:DD" (Some "Lamp"), mk_AdvertisementData [])]
                (mk_BLEDevice "AA:BB" (Some "Band"))
                (mk_AdvertisementData [HRS_UUID])
                [(mk_BLEDevice "AA:BB" (Some "Mi Band 7"),
                  mk_AdvertisementData [HRM_UUID; HRS_UUID])]).
  - reflexivity.
  - simpl. left.
  - intros a Ha%list_elem_of_singleton Hacc. subst a.
    unfold accepted in Hacc. simpl in Hacc. by apply elem_of_nil in Hacc.
Defined.

(** * Further properties of the code *)

(** ** The parser: what it ignores, and what it keeps *)

Lemma parse_value_of data st s :
  eval (parse_heart_rate_data data) st = Ret (PSample s) →
  heart_rate s = value_of data ∧ flag s = byte_at data 0 ∧
  sensor_contact s =
    (if Z.testbit (byte_at data 0) 2
     then Some (Z.testbit (byte_at data 0) 1) else None) ∧
  timestamp s = isoformat (clock st (ticks st)).
Proof.
  unfold eval, value_of, byte_at.
  destruct data as [|b0 [|b1 [|b2 rest]]].
  - rewrite parse_short by (simpl; lia). discriminate.
  - rewrite parse_short by (simpl; lia). discriminate.
  - rewrite parse_two. intros [= <-]. cbn [lookup list_lookup length].
    rewrite bool_decide_eq_false_2 by lia. rewrite andb_false_r. done.
  - rewrite parse_three. intros [= <-]. cbn [lookup list_lookup length].
    rewrite bool_decide_eq_true_2 by lia. rewrite andb_true_r. done.
Qed.

(** Bytes after the value are ignored: the parser does on a payload what
    it does on its first three bytes, and on its first two bytes when
    bit 0 of the flags is clear. *)
Theorem parse_ignores_trailing_bytes (data : bytes) (st : State) :
  parse_heart_rate_data data st = parse_heart_rate_data (take 3 data) st ∧
  (Z.testbit (byte_at data 0) 0 = false →
   parse_heart_rate_data data st = parse_heart_rate_data (take 2 data) st).
Proof.
  destruct data as [|b0 [|b1 [|b2 rest]]]; try (split; reflexivity).
  split.
  - cbn [take]. rewrite ?take_0. by rewrite !parse_three.
  - unfold byte_at. cbn [lookup list_lookup take]. intros Hb.
    rewrite ?take_0, parse_three, parse_two, Hb. done.
Qed.

Lemma parse_ignores_trailing_bytes_witness :
  parse_heart_rate_data [x04; x50; xff; x10; x20] st_new =
  parse_heart_rate_data [x04; x50] st_new.
Proof.
  apply (parse_ignores_trailing_bytes [x04; x50; xff; x10; x20] st_new).
  reflexivity.
Defined.

Lemma testbit_land7 z i :
  0 ≤ i < 3 → Z.testbit z i = Z.testbit (Z.land z 7) i.
Proof.
  intros Hi. rewrite Z.land_spec.
  assert (i = 0 ∨ i = 1 ∨ i = 2) as [-> | [-> | ->]] by lia;
    simpl Z.testbit at 3; by rewrite andb_true_r.
Qed.

(** Only bits 0, 1 and 2 of the flags byte matter: two payloads that
    differ in the upper five flag bits alone decode to the same heart
    rate, contact status and timestamp. *)
Theorem parse_ignores_upper_flag_bits (b0 b0' : byte) (rest : bytes)
    (st : State) (p p' : parsed) :
  Z.land (byte_to_Z b0) 7 = Z.land (byte_to_Z b0') 7 →
  eval (parse_heart_rate_data (b0 :: rest)) st = Ret p →
  eval (parse_heart_rate_data (b0' :: rest)) st = Ret p' →
  same_reading p p'.
Proof.
  intros Hlow.
  assert (∀ i, 0 ≤ i < 3 →
            Z.testbit (byte_to_Z b0) i = Z.testbit (byte_to_Z b0') i) as Hbit.
  { intros i Hi. by rewrite (testbit_land7 _ i Hi), Hlow, <- testbit_land7. }
  unfold eval. destruct rest as [|b1 [|b2 rest]].
  - rewrite !parse_short by (simpl; lia). by intros [= <-] [= <-].
  - rewrite !parse_two. unfold contact_of.
    rewrite (Hbit 1), (Hbit 2) by lia.
    intros [= <-] [= <-]. by unfold same_reading.
  - rewrite !parse_three. unfold contact_of.
    rewrite (Hbit 0), (Hbit 1), (Hbit 2) by lia.
    intros [= <-] [= <-]. by unfold same_reading.
Qed.

Lemma parse_ignores_upper_flag_bits_witness :
  same_reading
    (PSample (mk_Sample 80 (Some true) 6 "2024-01-01T12:00:00"))
    (PSample (mk_Sample 80 (Some true) 254 "2024-01-01T12:00:00")).
Proof.
  apply (parse_ignores_upper_flag_bits x06 xfe [x50] st_new).
  - reflexivity.
  - unfold eval. rewrite parse_two. reflexivity.
  - unfold eval. rewrite parse_two. reflexivity.
Defined.

(** A 16-bit reading determines both value bytes: the low byte is the
    heart rate modulo 256 and the high byte is its quotient by 256. *)
Theorem parse_16bit_round_trip (data : bytes) (st : State) (s : Sample) :
  (3 ≤ length data)%nat →
  Z.testbit (byte_at data 0) 0 = true →
  eval (parse_heart_rate_data data) st = Ret (PSample s) →
  heart_rate s mod 256 = byte_at data 1 ∧
  heart_rate s / 256 = byte_at data 2.
Proof.
  intros Hlen Hbit Hs.
  destruct data as [|b0 [|b1 [|b2 rest]]]; try (simpl in Hlen; lia).
  unfold byte_at in *. cbn [lookup list_lookup] in *.
  unfold eval in Hs. rewrite parse_three, Hbit in Hs. injection Hs as <-.
  cbn [heart_rate].
  pose proof (byte_to_Z_range b1). pose proof (byte_to_Z_range b2).
  split; Z.div_mod_to_equations; lia.
Qed.

Lemma parse_16bit_round_trip_witness :
  336 mod 256 = byte_at [x05; x50; x01] 1 ∧
  336 / 256 = byte_at [x05; x50; x01] 2.
Proof.
  apply (parse_16bit_round_trip [x05; x50; x01] st_new
           (mk_Sample 336 (Some false) 5 "2024-01-01T12:00:00")).
  - simpl. lia.
  - reflexivity.
  - unfold eval. rewrite parse_three. reflexivity.
Defined.

(** ** Saving in any state *)

(** Whatever the state of the sink, a save puts the sample at the tail of
    the history (trimmed or not), changes no file object other than by
    writing to it, and leaves the other fields of the monitor, the clock
    oracle and the output alone. *)
Lemma save_any s st :
  (heart_rate_history (exec (save_heart_rate_data s) st) =
     trimmed (heart_rate_history st ++ [s]) ∨
   heart_rate_history (exec (save_heart_rate_data s) st) =
     heart_rate_history st ++ [s]) ∧
  length (files (exec (save_heart_rate_data s) st)) = length (files st) ∧
  csv_writer (exec (save_heart_rate_data s) st) = csv_writer st ∧
  csv_file (exec (save_heart_rate_data s) st) = csv_file st ∧
  csv_filename (exec (save_heart_rate_data s) st) = csv_filename st ∧
  clock (exec (save_heart_rate_data s) st) = clock st ∧
  stdout (exec (save_heart_rate_data s) st) = stdout st.
Proof.
  unfold exec, save_heart_rate_data, datetime_now, csv_writerow, file_flush,
    trimmed.
  run_monad.
  destruct (csv_writer st) as [h|] eqn:Hw; simpl;
    [destruct (files st !! h) as [f|] eqn:Hl; simpl;
     [destruct (f_closed f) eqn:Hc; simpl;
      [|destruct (csv_file st) as [fh|] eqn:Hf; simpl;
        [destruct (_ !! fh) as [f0|] eqn:Hl2; simpl;
         [destruct (f_closed f0) eqn:Hc2; simpl|]|]]|]|];
    try case_bool_decide; simpl; rewrite ?length_insert, ?Hw, ?Hf; auto 10.
Qed.

Lemma last_trimmed_snoc l s : last (trimmed (l ++ [s])) = Some s.
Proof.
  unfold trimmed, slice_last. case_bool_decide; [|apply last_snoc].
  rewrite drop_app_le by (rewrite length_app; simpl; lia). apply last_snoc.
Qed.

(** In every state, also when the write fails, the sample just saved is
    the last entry of the history, and the history is a final segment of
    the old history followed by the sample. *)
Theorem save_newest_is_last (s : Sample) (st : State) :
  last (heart_rate_history (exec (save_heart_rate_data s) st)) = Some s ∧
  heart_rate_history (exec (save_heart_rate_data s) st)
    `suffix_of` heart_rate_history st ++ [s].
Proof.
  destruct (save_any s st) as [[-> | ->] _].
  - split; [apply last_trimmed_snoc|].
    unfold trimmed, slice_last. case_bool_decide; [apply suffix_drop|done].
  - split; [apply last_snoc|done].
Qed.

Lemma set_history_eta st : set_history (heart_rate_history st) st = st.
Proof. by destruct st. Qed.

(** A monitor that never opened its sink only buffers: a run of saves
    returns normally and changes the history alone - no file is touched,
    the clock is not read and nothing is printed. *)
Theorem saves_without_writer (samples : list Sample) (st : State) :
  csv_writer st = None →
  ∃ hist, for_each save_heart_rate_data samples st =
          (Ret tt, set_history hist st).
Proof.
  revert st. induction samples as [|s samples IH]; intros st Hw.
  - exists (heart_rate_history st). simpl. by rewrite set_history_eta.
  - simpl. unfold mbind, M_bind. rewrite save_no_sink by done.
    destruct (IH (set_history (trimmed (heart_rate_history st ++ [s])) st))
      as (hist & ->); [done|].
    exists hist. reflexivity.
Qed.

Lemma saves_without_writer_witness :
  ∃ hist,
    for_each save_heart_rate_data
      [mk_Sample 72 None 0 "a"; mk_Sample 80 None 0 "b"] st_new =
    (Ret tt, set_history hist st_new).
Proof. apply (saves_without_writer _ st_new). reflexivity. Defined.

Lemma save_closed_eq s h st :
  sink_closed h st →
  save_heart_rate_data s st =
  (Raise (ValueError closed_msg),
   set_ticks (S (ticks st)) (set_history (heart_rate_history st ++ [s]) st)).
Proof.
  intros (Hw & Hf & f & Hl & Hc).
  unfold save_heart_rate_data, datetime_now, csv_writerow.
  run_monad. rewrite Hw. simpl. rewrite Hl, Hc. reflexivity.
Qed.

(** Once the file was closed, a save raises [ValueError]: the sample has
    been appended, the clock has been read, nothing is written, and the
    trimming step is skipped - so the history grows by one whatever its
    length. *)
Theorem save_on_closed_sink (s : Sample) (h : nat) (st : State) :
  sink_closed h st →
  save_heart_rate_data s st =
  (Raise (ValueError closed_msg),
   set_ticks (S (ticks st)) (set_history (heart_rate_history st ++ [s]) st)) ∧
  length (heart_rate_history (exec (save_heart_rate_data s) st)) =
    S (length (heart_rate_history st)).
Proof.
  intros Hc. pose proof (save_closed_eq s h st Hc) as Heq.
  split; [exact Heq|]. unfold exec. rewrite Heq. simpl.
  rewrite length_app. simpl. lia.
Qed.

Lemma sink_closed_after_close :
  sink_closed 0 (exec close_csv_file st_streaming).
Proof.
  split; [reflexivity|]. split; [reflexivity|].
  eexists. split; reflexivity.
Qed.

Lemma save_on_closed_sink_witness :
  length (heart_rate_history
            (exec (save_heart_rate_data (mk_Sample 72 None 0 ""))
                  (exec close_csv_file st_streaming))) = 1%nat.
Proof.
  destruct (save_on_closed_sink (mk_Sample 72 None 0 "") 0
              (exec close_csv_file st_streaming) sink_closed_after_close)
    as [_ Hlen].
  rewrite Hlen. reflexivity.
Defined.

(** ** The history after any number of saves *)

Lemma saves_ok samples : ∀ st,
  sink_ok st →
  ∃ st', for_each save_heart_rate_data samples st = (Ret tt, st') ∧
         sink_ok st'.
Proof.
  induction samples as [|s samples IH]; intros st Hok.
  - exists st. done.
  - destruct (save_ok_step s st Hok) as (st1 & Hs & Hok1 & _).
    destruct (IH st1 Hok1) as (st' & Hs' & Hok').
    exists st'. simpl. unfold mbind, M_bind. by rewrite Hs.
Qed.

Lemma saves_snoc samples x st :
  sink_ok st →
  heart_rate_history (exec (for_each save_heart_rate_data (samples ++ [x])) st) =
  trimmed (heart_rate_history (exec (for_each save_heart_rate_data samples) st)
             ++ [x]).
Proof.
  intros Hok. destruct (saves_ok samples st Hok) as (st1 & Hs & Hok1).
  destruct (save_ok_step x st1 Hok1) as (st' & Hx & _ & Hh).
  unfold exec. rewrite for_each_app, Hs. simpl.
  unfold mbind, M_bind. rewrite Hx. simpl. exact Hh.
Qed.

Lemma history_length_le n : (history_length n ≤ n)%nat.
Proof.
  unfold history_length. case_bool_decide; [done|].
  pose proof (Nat.mod_upper_bound (n - 1001) 501). lia.
Qed.

Lemma history_length_max n : (history_length n ≤ 1000)%nat.
Proof.
  unfold history_length. case_bool_decide; [done|].
  pose proof (Nat.mod_upper_bound (n - 1001) 501). lia.
Qed.

Lemma history_length_succ n :
  history_length (S n) =
  if bool_decide (history_length n = 1000%nat) then 500%nat
  else S (history_length n).
Proof.
  unfold history_length.
  pose proof (Nat.mod_upper_bound (n - 1001) 501).
  pose proof (Nat.div_mod_eq (n - 1001) 501).
  pose proof (Nat.div_mod_eq (S n - 1001) 501).
  pose proof (Nat.mod_upper_bound (S n - 1001) 501).
  destruct (decide (n ≤ 1000)%nat) as [Hn | Hn].
  - rewrite (bool_decide_eq_true_2 (n ≤ 1000)%nat) by done.
    repeat case_bool_decide; lia.
  - rewrite (bool_decide_eq_false_2 (n ≤ 1000)%nat) by done.
    rewrite (bool_decide_eq_false_2 (S n ≤ 1000)%nat) by lia.
    replace (S n - 1001)%nat with (S (n - 1001)) in * by lia.
    case_bool_decide; nia.
Qed.

(** The history after any run of saves into an empty history, in closed
    form: it holds the last [history_length n] of the [n] samples saved,
    in order - all of them up to 1000, and from then on between 500 and
    1000 of them, dropping back to 500 every 501 saves. *)
Theorem history_after_saves (samples : list Sample) (st : State) :
  sink_ok st → heart_rate_history st = [] →
  heart_rate_history (exec (for_each save_heart_rate_data samples) st) =
    slice_last (history_length (length samples)) samples ∧
  length (heart_rate_history (exec (for_each save_heart_rate_data samples) st))
    = history_length (length samples) ∧
  ((1000 < length samples)%nat →
   (500 ≤ history_length (length samples) ≤ 1000)%nat).
Proof.
  intros Hok Hempty.
  assert (heart_rate_history (exec (for_each save_heart_rate_data samples) st) =
          slice_last (history_length (length samples)) samples) as Heq.
  { induction samples as [|x samples IH] using rev_ind.
    - unfold exec. simpl. by rewrite Hempty.
    - rewrite saves_snoc, IH by done. clear IH.
      rewrite length_app. simpl. rewrite Nat.add_1_r, history_length_succ.
      pose proof (history_length_le (length samples)) as Hle.
      pose proof (history_length_max (length samples)) as Hmax.
      unfold trimmed, slice_last.
      rewrite !length_app, length_drop. simpl.
      case_bool_decide as Hfull; case_bool_decide as Hbig; try lia.
      + rewrite drop_app_le by (rewrite length_drop; lia).
        rewrite drop_drop, drop_app_le by lia. do 2 f_equal. lia.
      + rewrite drop_app_le by lia. do 2 f_equal. lia. }
  split; [exact Heq|]. split.
  - rewrite Heq. unfold slice_last. rewrite length_drop.
    pose proof (history_length_le (length samples)). lia.
  - intros Hn. unfold history_length. rewrite bool_decide_eq_false_2 by lia.
    pose proof (Nat.mod_upper_bound (length samples - 1001) 501). lia.
Qed.

Lemma history_after_saves_witness :
  let samples := (λ i, mk_Sample (Z.of_nat i) None 0 "") <$> seq 1 1502 in
  length (heart_rate_history
            (exec (for_each save_heart_rate_data samples) st_streaming))
  = 500%nat.
Proof.
  intros samples.
  destruct (history_after_saves samples st_streaming sink_ok_streaming)
    as (_ & Hlen & _).
  - reflexivity.
  - rewrite Hlen. unfold samples. rewrite length_fmap, length_seq.
    reflexivity.
Defined.

(** ** The life of the sink: open, write, close *)

Lemma close_csv_file_eq h f st :
  csv_file st = Some h → files st !! h = Some f →
  close_csv_file st =
  (Ret tt,
   set_stdout (stdout st ++ ["数据已保存到: " +:+ default "None" (csv_filename st)])
     (set_files (<[h := mk_File (f_name f) [] (f_rows f) (f_synced f) true]>
                   (files st)) st)).
Proof.
  intros Hf Hl. unfold close_csv_file, file_close, print. run_monad.
  rewrite Hf. simpl. rewrite Hl. reflexivity.
Qed.

Lemma f_rows_written row f : f_rows (written row f) = f_rows f ++ [row].
Proof.
  unfold f_rows, written. cbn [f_flushed f_buffer].
  by rewrite app_nil_r, app_assoc.
Qed.

(** A run of saves on an open sink rewrites the file object of the sink
    and no other. *)
Lemma saves_open_files samples : ∀ h f st,
  sink_open h st → files st !! h = Some f →
  ∃ st' f',
    for_each save_heart_rate_data samples st = (Ret tt, st') ∧
    files st' = <[h := f']> (files st) ∧
    f_name f' = f_name f ∧ f_synced f' = f_synced f ∧ f_closed f' = false ∧
    f_rows f' = f_rows f ++ rows_of (clock st) (ticks st) samples ∧
    csv_file st' = Some h ∧ csv_filename st' = csv_filename st ∧
    stdout st' = stdout st.
Proof.
  induction samples as [|s samples IH]; intros h f st Ho Hl.
  - exists st, f. pose proof Ho as (_ & Hf & f0 & Hl0 & Hc).
    assert (f0 = f) as -> by congruence.
    simpl. rewrite app_nil_r, list_insert_id by done. done.
  - pose proof Ho as (Hw & Hf & f0 & Hl0 & Hc).
    assert (f0 = f) as -> by congruence.
    pose proof (sink_open_lookup _ _ Ho) as Hlt.
    pose proof (save_open s h f st Hw Hf Hl Hc) as Hs.
    set (row := row_of (clock st (ticks st)) s) in *.
    match type of Hs with _ = (_, ?st1) =>
      destruct (IH h (written row f) st1)
        as (st' & f' & Hs' & Hfiles & Hn & Hsy & Hcl & Hr & Hcf & Hcn & Hout)
    end.
    { by apply sink_open_after_write. }
    { cbn [files]. by rewrite list_lookup_insert_eq. }
    exists st', f'. simpl. unfold mbind, M_bind. rewrite Hs.
    split; [exact Hs'|]. cbn [files clock ticks csv_filename stdout] in *.
    rewrite list_insert_insert_eq in Hfiles.
    rewrite f_rows_written, <- app_assoc in Hr. done.
Qed.

(** A whole session of the sink: opened, written to by any run of saves,
    closed.  The session adds exactly one file object; it bears the name
    chosen when it was opened, is closed, and holds - all flushed - the
    header row followed by one row per sample in the order saved. *)
Theorem sink_session_file (samples : list Sample) (st : State) :
  eval (init_csv_file ;; for_each save_heart_rate_data samples ;;
        close_csv_file) st = Ret tt ∧
  files (exec (init_csv_file ;; for_each save_heart_rate_data samples ;;
               close_csv_file) st) =
  files st ++
    [mk_File (session_filename (clock st (ticks st))) []
             ([PStr "time"; PStr "rate"] ::
              rows_of (clock st) (S (ticks st)) samples)
             [] true].
Proof.
  pose proof (sink_open_init st) as Ho.
  unfold eval, exec in *. unfold mbind, M_bind.
  rewrite init_csv_file_eq in *. cbn [snd] in Ho.
  match type of Ho with sink_open _ ?st1 =>
    destruct (saves_open_files samples (length (files st))
                (mk_File (session_filename (clock st (ticks st)))
                         [header_row] [] [] false) st1 Ho)
      as (st' & f' & Hs & Hfiles & Hn & Hsy & Hcl & Hr & Hcf & _)
  end.
  { cbn [files]. by apply list_lookup_middle. }
  rewrite Hs. cbn [files clock ticks] in *.
  replace (length (files st)) with (length (files st) + 0)%nat in Hfiles at 1
    by lia.
  rewrite insert_app_r in Hfiles. simpl in Hfiles.
  rewrite (close_csv_file_eq (length (files st)) f' st').
  - cbn [fst snd files set_stdout set_files]. split; [done|].
    rewrite Hfiles.
    replace (length (files st)) with (length (files st) + 0)%nat at 1 by lia.
    rewrite insert_app_r. simpl. rewrite Hn, Hsy, Hr. reflexivity.
  - exact Hcf.
  - rewrite Hfiles. by apply list_lookup_middle.
Qed.

Lemma close_csv_file_no_file st :
  csv_file st = None → close_csv_file st = (Ret tt, st).
Proof.
  intros Hf. unfold close_csv_file. run_monad. by rewrite Hf.
Qed.

(** Closing is safe at any time.  It never raises; with no file opened it
    changes nothing at all; and closing again leaves the files as the
    first closing left them. *)
Theorem close_csv_file_idempotent (st : State) :
  eval close_csv_file st = Ret tt ∧
  (csv_file st = None → close_csv_file st = (Ret tt, st)) ∧
  files (exec close_csv_file (exec close_csv_file st)) =
  files (exec close_csv_file st).
Proof.
  unfold eval, exec, close_csv_file, file_close, print. run_monad.
  destruct (csv_file st) as [h|] eqn:Hf; simpl.
  - destruct (files st !! h) as [f|] eqn:Hl; simpl.
    + split; [done|]. split; [done|]. rewrite Hf. simpl.
      rewrite list_lookup_insert_eq by (by eapply lookup_lt_Some). simpl.
      rewrite list_insert_insert_eq, app_nil_r. done.
    + split; [done|]. split; [done|]. rewrite Hf. simpl. rewrite Hl. done.
  - split; [done|]. split; [done|]. rewrite Hf. done.
Qed.

Lemma close_csv_file_idempotent_witness :
  close_csv_file st_new = (Ret tt, st_new).
Proof. apply (close_csv_file_idempotent st_new). reflexivity. Defined.

(** Closing flushes: every row written before is in the flushed part of
    the closed file, and none is lost. *)
Theorem close_csv_file_flushes (h : nat) (f : File) (st : State) :
  csv_file st = Some h → files st !! h = Some f →
  files (exec close_csv_file st) !! h =
    Some (mk_File (f_name f) [] (f_flushed f ++ f_buffer f) (f_synced f)
                  true) ∧
  flushed_rows h (exec close_csv_file st) = file_rows h st.
Proof.
  intros Hf Hl. unfold exec. rewrite (close_csv_file_eq h f) by done.
  unfold flushed_rows, file_rows. cbn [snd files set_stdout set_files].
  rewrite list_lookup_insert_eq by (by eapply lookup_lt_Some).
  rewrite Hl. done.
Qed.

Lemma close_csv_file_flushes_witness :
  flushed_rows 0 (exec close_csv_file st_streaming) =
  [[PStr "time"; PStr "rate"]].
Proof.
  destruct (close_csv_file_flushes 0
              (mk_File "heart_rate_20240101_120000.csv" [header_row] [] []
                       false)
              st_streaming) as [_ Hfl].
  - reflexivity.
  - reflexivity.
  - rewrite Hfl. reflexivity.
Defined.

(** ** The handler in any state *)

(** In any state, for any payload, the handler returns normally: an
    exception of the save is caught and reported.  It keeps the number of
    file objects and the handles held by the monitor. *)
Lemma handler_any data st :
  eval (notification_handler data) st = Ret tt ∧
  length (files (exec (notification_handler data) st)) = length (files st) ∧
  csv_writer (exec (notification_handler data) st) = csv_writer st ∧
  csv_file (exec (notification_handler data) st) = csv_file st ∧
  csv_filename (exec (notification_handler data) st) = csv_filename st ∧
  clock (exec (notification_handler data) st) = clock st.
Proof.
  destruct (decide (length data < 2)%nat) as [Hs | Hl].
  - unfold eval, exec. rewrite handler_malformed by done. done.
  - destruct (parse_long data st) as (s & Hp & _); [lia|].
    pose proof (save_any s (tick st)) as (_ & Hlen & Hw & Hf & Hn & Hc & _).
    unfold eval, exec in *.
    unfold notification_handler, try_except, mbind, M_bind.
    rewrite Hp.
    destruct (save_heart_rate_data s (tick st)) as [[[]|e] st1]; simpl in *; done.
Qed.

Lemma stream_any ns : ∀ st,
  eval (stream ns) st = Ret tt ∧
  length (files (exec (stream ns) st)) = length (files st) ∧
  csv_writer (exec (stream ns) st) = csv_writer st ∧
  csv_file (exec (stream ns) st) = csv_file st ∧
  csv_filename (exec (stream ns) st) = csv_filename st ∧
  clock (exec (stream ns) st) = clock st.
Proof.
  induction ns as [|data ns IH]; intros st; [done|].
  pose proof (handler_any data st) as (He & Hlen & Hw & Hf & Hn & Hc).
  unfold stream, eval, exec in *. simpl. unfold mbind, M_bind.
  destruct (notification_handler data st) as [[[]|e] st1]; [|discriminate].
  simpl in *. destruct (IH st1) as (He' & Hlen' & Hw' & Hf' & Hn' & Hc').
  unfold stream, eval, exec in *.
  rewrite He', Hlen', Hw', Hf', Hn', Hc'. done.
Qed.

(** The callback never lets an exception escape: for every payload and
    every stream of payloads, in every state of the monitor and of its
    file, handling returns normally. *)
Theorem notification_handler_never_raises (data : bytes) (ns : list bytes)
    (st : State) :
  eval (notification_handler data) st = Ret tt ∧
  eval (stream ns) st = Ret tt.
Proof.
  split; [apply handler_any | apply stream_any].
Qed.

(** A well-formed notification that arrives when the file is closed: the
    sample is buffered, the failure of the write is printed, and nothing
    else changes. *)
Lemma handler_closed data h st :
  well_formed data → sink_closed h st →
  ∃ s, notification_handler data st =
       (Ret tt,
        mk_State (heart_rate_history st ++ [s]) (csv_filename st)
                 (csv_writer st) (csv_file st) (clock st) (S (S (ticks st)))
                 (files st)
                 (stdout st ++ [save_error_line (ValueError closed_msg)])) ∧
       heart_rate s = value_of data.
Proof.
  intros Hwf Hc.
  destruct (parse_long data st Hwf) as (s & Hp & _).
  assert (sink_closed h (tick st)) as Hc1 by exact Hc.
  pose proof (save_closed_eq s h (tick st) Hc1) as Hs.
  exists s. split.
  - unfold notification_handler, try_except, mbind, M_bind.
    rewrite Hp, Hs. reflexivity.
  - eapply parse_value_of. unfold eval. by rewrite Hp.
Qed.

(** The bound of 1000 depends on the write succeeding.  When the file of
    the sink is closed, every well-formed notification still adds its
    sample to the history and none is trimmed: after [n] of them the
    history is longer by [n], whatever its length was, and the files are
    untouched. *)
Theorem closed_sink_history_grows (ns : list bytes) (h : nat) (st : State) :
  sink_closed h st → Forall well_formed ns →
  length (heart_rate_history (exec (stream ns) st)) =
    (length (heart_rate_history st) + length ns)%nat ∧
  files (exec (stream ns) st) = files st ∧
  length (stdout (exec (stream ns) st)) = (length (stdout st) + length ns)%nat.
Proof.
  revert st. induction ns as [|data ns IH]; intros st Hc Hall.
  - unfold exec. simpl. rewrite !Nat.add_0_r. done.
  - apply Forall_cons in Hall as [Hwf Hall].
    destruct (handler_closed data h st Hwf Hc) as (s & Hh & _).
    unfold stream, exec in *. simpl. unfold mbind, M_bind. rewrite Hh.
    match goal with |- context [for_each _ ns ?st1] =>
      destruct (IH st1) as (Hlen & Hfiles & Hout); [exact Hc|exact Hall|]
    end.
    rewrite Hlen, Hfiles, Hout. cbn [heart_rate_history files stdout].
    rewrite !length_app. simpl. split; [lia|]. split; [done|lia].
Qed.

Lemma closed_sink_history_grows_witness :
  length (heart_rate_history
            (exec (stream [[x00; x48]; [x06; x50]])
                  (exec close_csv_file st_streaming))) = 2%nat.
Proof.
  destruct (closed_sink_history_grows [[x00; x48]; [x06; x50]] 0
              (exec close_csv_file st_streaming) sink_closed_after_close)
    as (Hlen & _).
  - repeat constructor; unfold well_formed; simpl; lia.
  - rewrite Hlen. reflexivity.
Defined.

(** ** A stream of notifications on an open sink *)

Lemma handler_open data h st :
  well_formed data → sink_open h st →
  ∃ st', notification_handler data st = (Ret tt, st') ∧
         sink_open h st' ∧
         file_rows h st' =
           file_rows h st ++
           [[PStr (strftime_HMS (clock st (S (ticks st))));
             PInt (value_of data)]] ∧
         flushed_rows h st' = file_rows h st' ∧
         stdout st' =
           stdout st ++ [rate_line (clock st (2 + ticks st)%nat) (value_of data)] ∧
         clock st' = clock st ∧ ticks st' = (3 + ticks st)%nat.
Proof.
  intros Hwf Ho.
  destruct (parse_long data st Hwf) as (s & Hp & _).
  assert (heart_rate s = value_of data) as Hv.
  { eapply parse_value_of. unfold eval. by rewrite Hp. }
  assert (sink_open h (tick st)) as Ho1 by (by eapply sink_open_ext).
  destruct (save_open_step s h (tick st) Ho1)
    as (st1 & Hs & Ho2 & Hr & Hfl & Hc & Ht & Hout & _).
  eexists. split.
  { unfold notification_handler, try_except, mbind, M_bind.
    rewrite Hp, Hs. unfold datetime_now, print, modify. reflexivity. }
  cbn [files stdout set_stdout set_ticks clock ticks].
  split; [by eapply sink_open_ext|].
  unfold file_rows, flushed_rows in *. cbn [files].
  unfold row_of in Hr. rewrite Hv in Hr. cbn [clock ticks tick set_ticks] in *.
  rewrite Hout, Hc, Ht, Hv. unfold rate_line. done.
Qed.

Lemma rows_of_stream_rates clk ns : ∀ t,
  (λ r : Row, r !! 1%nat) <$> rows_of_stream clk t ns =
  (λ d, Some (PInt (value_of d))) <$> filter well_formed ns.
Proof.
  induction ns as [|data ns IH]; intros t; [done|]. simpl.
  destruct (decide (well_formed data)).
  - rewrite filter_cons_True by done. simpl. by rewrite IH.
  - rewrite filter_cons_False by done. apply IH.
Qed.

Lemma lines_of_stream_length clk ns : ∀ t,
  length (lines_of_stream clk t ns) = length (filter well_formed ns).
Proof.
  induction ns as [|data ns IH]; intros t; [done|]. simpl.
  destruct (decide (well_formed data)).
  - rewrite filter_cons_True by done. simpl. by rewrite IH.
  - rewrite filter_cons_False by done. apply IH.
Qed.

Lemma stream_open ns : ∀ h st,
  sink_open h st →
  ∃ st', stream ns st = (Ret tt, st') ∧ sink_open h st' ∧
         file_rows h st' =
           file_rows h st ++ rows_of_stream (clock st) (ticks st) ns ∧
         stdout st' =
           stdout st ++ lines_of_stream (clock st) (ticks st) ns ∧
         clock st' = clock st ∧
         ticks st' = (ticks st + 3 * length (filter well_formed ns))%nat.
Proof.
  induction ns as [|data ns IH]; intros h st Ho.
  - exists st. simpl. rewrite !app_nil_r. split; [done|].
    split; [done|]. split; [done|]. split; [done|]. split; [done|]. simpl. lia.
  - unfold stream in *. simpl. unfold mbind, M_bind.
    destruct (decide (well_formed data)) as [Hwf | Hbad].
    + destruct (handler_open data h st Hwf Ho)
        as (st1 & -> & Ho1 & Hr1 & _ & Hout1 & Hc1 & Ht1).
      destruct (IH h st1 Ho1) as (st' & -> & Ho' & Hr' & Hout' & Hc' & Ht').
      exists st'. rewrite filter_cons_True by done.
      rewrite Hr', Hout', Hc', Ht', Hr1, Hout1, Hc1, Ht1, <- !app_assoc.
      simpl. split; [done|]. split; [done|]. split; [done|].
      split; [done|]. split; [done|]. lia.
    + rewrite handler_malformed by (unfold well_formed in Hbad; lia).
      destruct (IH h st Ho) as (st' & -> & Ho' & Hr' & Hout' & Hc' & Ht').
      exists st'. rewrite filter_cons_False by done. done.
Qed.

(** End to end on an open sink: a stream of notifications writes one row
    per payload of two bytes or more, in the order of arrival, carrying
    the value decoded from that payload, and prints one line for each;
    shorter payloads leave no trace.  Each row is written at the second of
    the three clock readings that its notification takes. *)
Theorem stream_rows_of_well_formed (ns : list bytes) (h : nat) (st : State) :
  sink_open h st →
  eval (stream ns) st = Ret tt ∧
  file_rows h (exec (stream ns) st) =
    file_rows h st ++ rows_of_stream (clock st) (ticks st) ns ∧
  (λ r : Row, r !! 1%nat) <$> rows_of_stream (clock st) (ticks st) ns =
    (λ d, Some (PInt (value_of d))) <$> filter well_formed ns ∧
  stdout (exec (stream ns) st) =
    stdout st ++ lines_of_stream (clock st) (ticks st) ns ∧
  length (lines_of_stream (clock st) (ticks st) ns) =
    length (filter well_formed ns) ∧
  ticks (exec (stream ns) st) =
    (ticks st + 3 * length (filter well_formed ns))%nat.
Proof.
  intros Ho.
  destruct (stream_open ns h st Ho) as (st' & Hs & _ & Hr & Hout & _ & Ht).
  unfold eval, exec. rewrite Hs. cbn [fst snd].
  split; [done|]. split; [done|]. split; [apply rows_of_stream_rates|].
  split; [done|]. split; [apply lines_of_stream_length|done].
Qed.

Lemma sink_open_streaming : sink_open 0 st_streaming.
Proof.
  split; [reflexivity|]. split; [reflexivity|]. eexists. split; reflexivity.
Qed.

Lemma stream_rows_of_well_formed_witness :
  file_rows 0 (exec (stream [[x00; x48]; [x48]; []; [x05; x50; x01]])
                    st_streaming) =
  [[PStr "time"; PStr "rate"];
   [PStr "12:00:02"; PInt 72];
   [PStr "12:00:05"; PInt 336]].
Proof.
  destruct (stream_rows_of_well_formed [[x00; x48]; [x48]; []; [x05; x50; x01]]
              0 st_streaming sink_open_streaming) as (_ & Hr & _).
  rewrite Hr. reflexivity.
Defined.

(** ** More on device discovery *)

Lemma set_stdout_eta st : set_stdout (stdout st) st = st.
Proof. by destruct st. Qed.

(** The callbacks print one line per device they take, and touch nothing
    else. *)
Lemma deliver_output ads : ∀ d st,
  deliver ads d st =
  (Ret (d ++ (item_of <$> first_seen d.*1 ads)),
   set_stdout (stdout st ++ (discovery_line <$> first_seen d.*1 ads)) st).
Proof.
  induction ads as [|[device adv] ads IH]; intros d st.
  - simpl. by rewrite !app_nil_r, set_stdout_eta.
  - simpl. unfold detection_callback, dict_contains, mbind, M_bind.
    destruct (decide (HRS_UUID ∈ service_uuids adv)) as [Hin | Hout].
    + rewrite (bool_decide_eq_true_2 _ Hin).
      destruct (decide (address device ∈ d.*1)) as [Hseen | Hnew].
      * rewrite (bool_decide_eq_true_2 _ Hseen). simpl.
        rewrite bool_decide_eq_false_2 by tauto. apply IH.
      * rewrite (bool_decide_eq_false_2 _ Hnew). simpl.
        rewrite bool_decide_eq_true_2 by tauto.
        unfold dict_setitem, dict_contains, print, modify, mret, M_ret.
        rewrite (bool_decide_eq_false_2 _ Hnew).
        rewrite (IH (d ++ [(address device, device)])).
        rewrite fmap_app. simpl. cbn [stdout set_stdout].
        rewrite <- !app_assoc. reflexivity.
    + rewrite (bool_decide_eq_false_2 _ Hout).
      rewrite bool_decide_eq_false_2 by tauto. apply IH.
Qed.

Lemma scan_output_eq ads st :
  scan_for_heart_rate_devices ads st =
  (Ret (first_seen [] ads),
   set_stdout (stdout st ++ "正在扫描心率设备..." ::
                 (discovery_line <$> first_seen [] ads)) st).
Proof.
  unfold scan_for_heart_rate_devices, print, modify, mbind, M_bind.
  rewrite deliver_output. simpl. unfold mret, M_ret, dict_values, item_of.
  rewrite <- list_fmap_compose, <- app_assoc.
  f_equal. f_equal. apply list_fmap_id.
Qed.

(** The scan prints its banner and then one line per device it returns, in
    the order of the list; the monitor, the files and the clock are as
    before. *)
Theorem scan_output (ads : list Advertisement) (st : State) :
  ∃ results,
    scan_for_heart_rate_devices ads st =
    (Ret results,
     set_stdout (stdout st ++ "正在扫描心率设备..." ::
                   (discovery_line <$> results)) st).
Proof.
  exists (first_seen [] ads). apply scan_output_eq.
Qed.

Lemma first_seen_app a : ∀ seen b,
  first_seen seen (a ++ b) =
  first_seen seen a ++
  first_seen (seen ++ (address <$> first_seen seen a)) b.
Proof.
  induction a as [|[device adv] a IH]; intros seen b; simpl.
  - by rewrite app_nil_r.
  - case_bool_decide; [|apply IH]. simpl.
    rewrite IH, <- app_assoc. reflexivity.
Qed.

Lemma first_seen_all_seen b : ∀ seen,
  (∀ a, a ∈ b → accepted a → address a.1 ∈ seen) →
  first_seen seen b = [].
Proof.
  induction b as [|[device adv] b IH]; intros seen Hseen; [done|]. simpl.
  rewrite bool_decide_eq_false_2.
  - apply IH. intros a Ha. apply Hseen. by right.
  - intros [Hu Hn]. apply Hn. apply (Hseen (device, adv)); [left|exact Hu].
Qed.

(** Advertisements of addresses that are listed already change nothing:
    when every accepted advertisement of [more] repeats the address of an
    accepted advertisement of [ads], scanning [ads ++ more] returns what
    scanning [ads] returns.  In particular a stream heard twice gives the
    list of the stream heard once. *)
Theorem scan_ignores_repeats (ads more : list Advertisement) (st : State) :
  (∀ a, a ∈ more → accepted a →
     ∃ a', a' ∈ ads ∧ accepted a' ∧ address a'.1 = address a.1) →
  eval (scan_for_heart_rate_devices (ads ++ more)) st =
  eval (scan_for_heart_rate_devices ads) st.
Proof.
  intros Hrep. rewrite !scan_first_seen. f_equal.
  rewrite first_seen_app.
  rewrite (first_seen_all_seen more); [by rewrite app_nil_r|].
  intros a Ha Hacc. destruct (Hrep a Ha Hacc) as ([d adv] & Hin & Hu & <-).
  destruct (first_seen_complete ads [] d adv Hin Hu) as [H|H]; [|done].
  by apply elem_of_nil in H.
Qed.

Lemma scan_ignores_repeats_witness :
  let ads := [(mk_BLEDevice "AA:BB" (Some "Band"),
               mk_AdvertisementData [HRS_UUID]);
              (mk_BLEDevice "CC:DD" None, mk_AdvertisementData [HRS_UUID])] in
  eval (scan_for_heart_rate_devices (ads ++ ads)) st_new =
  eval (scan_for_heart_rate_devices ads) st_new.
Proof.
  intros ads. apply (scan_ignores_repeats ads ads st_new).
  intros a Ha Hacc. exists a. done.
Defined.

(** The scan returns no device exactly when no advertisement carries the
    Heart Rate Service, and never more devices than there are such
    advertisements. *)
Theorem scan_empty_iff (ads : list Advertisement) (st : State) :
  (eval (scan_for_heart_rate_devices ads) st = Ret [] ↔
   Forall (λ a, ¬ accepted a) ads) ∧
  ∃ results, eval (scan_for_heart_rate_devices ads) st = Ret results ∧
             (length results ≤ length (filter accepted ads))%nat.
Proof.
  rewrite scan_first_seen. split.
  - split.
    + intros [= Hnil]. apply Forall_forall. intros [d adv] Hin Hacc.
      destruct (first_seen_complete ads [] d adv Hin Hacc) as [H|H].
      * by apply elem_of_nil in H.
      * rewrite Hnil in H. by apply elem_of_nil in H.
    + intros Hall. f_equal. apply first_seen_all_seen.
      intros a Ha Hacc. rewrite Forall_forall in Hall. by destruct (Hall a Ha).
  - eexists. split; [done|].
    pose proof (sublist_length _ _ (first_seen_sublist ads [])) as Hlen.
    by rewrite length_fmap in Hlen.
Qed.

(** ** The selection prompt *)

Lemma same_but_stdout_refl st : same_but_stdout st st.
Proof. by unfold same_but_stdout. Qed.

Lemma same_but_stdout_trans st1 st2 st3 :
  same_but_stdout st1 st2 → same_but_stdout st2 st3 → same_but_stdout st1 st3.
Proof.
  unfold same_but_stdout.
  intros (-> & -> & -> & -> & -> & -> & ->) (-> & -> & -> & -> & -> & -> & ->).
  done.
Qed.

Lemma same_but_stdout_set out st : same_but_stdout st (set_stdout out st).
Proof. by unfold same_but_stdout. Qed.

Section Selection.

Variable str_strip : string → string.
Variable py_int : string → option Z.

Lemma print_devices_ret devices : ∀ i st,
  ∃ st', print_devices i devices st = (Ret tt, st') ∧ same_but_stdout st st'.
Proof.
  induction devices as [|d devices IH]; intros i st; simpl.
  - exists st. split; [done|apply same_but_stdout_refl].
  - unfold print, modify, mbind, M_bind.
    edestruct (IH (S i)) as (st' & -> & Hsame).
    exists st'. split; [done|].
    eapply same_but_stdout_trans; [apply same_but_stdout_set|exact Hsame].
Qed.

(** The loop of the prompt returns normally, only prints, and hands back a
    device of the list it was given. *)
Lemma selection_loop_sound devices inputs : ∀ st,
  ∃ r st', selection_loop str_strip py_int devices inputs st = (Ret r, st') ∧
           same_but_stdout st st' ∧
           ∀ d rest, r = Returned (Some d) rest → d ∈ devices.
Proof.
  induction inputs as [|[line|] inputs IH]; intros st; simpl;
    unfold print, modify, mbind, M_bind, mret, M_ret.
  - eexists _, _. split; [reflexivity|].
    split; [apply same_but_stdout_set|discriminate].
  - destruct (py_int (str_strip line)) as [n|].
    + case_bool_decide as Hr.
      * destruct (devices !! Z.to_nat (n - 1)) as [d|] eqn:Hl.
        -- eexists _, _. split; [reflexivity|].
           split; [by unfold same_but_stdout|].
           intros d' rest [= <- _]. by eapply list_elem_of_lookup_2.
        -- apply lookup_ge_None in Hl. lia.
      * edestruct IH as (r & st' & -> & Hsame & Hmem).
        exists r, st'. split; [done|]. split; [|done].
        eapply same_but_stdout_trans; [|exact Hsame].
        by unfold same_but_stdout.
    + edestruct IH as (r & st' & -> & Hsame & Hmem).
      exists r, st'. split; [done|]. split; [|done].
      eapply same_but_stdout_trans; [|exact Hsame].
      by unfold same_but_stdout.
  - eexists _, _. split; [reflexivity|].
    split; [by unfold same_but_stdout|discriminate].
Qed.

(** What the loop returns does not depend on the state it runs in. *)
Lemma selection_loop_eval devices inputs : ∀ st st',
  eval (selection_loop str_strip py_int devices inputs) st =
  eval (selection_loop str_strip py_int devices inputs) st'.
Proof.
  unfold eval.
  induction inputs as [|[line|] inputs IH]; intros st st'; simpl;
    unfold print, modify, mbind, M_bind, mret, M_ret, raise; [done| |done].
  destruct (py_int (str_strip line)) as [n|]; [|apply IH].
  case_bool_decide; [|apply IH].
  by destruct (devices !! Z.to_nat (n - 1)).
Qed.

Lemma show_eval devices inputs st :
  devices ≠ [] →
  eval (show_device_selection str_strip py_int devices inputs) st =
  eval (selection_loop str_strip py_int devices inputs) st.
Proof.
  intros Hne. destruct devices as [|d0 devices]; [done|].
  unfold eval, show_device_selection, print, modify, mbind, M_bind.
  edestruct (print_devices_ret (d0 :: devices) 1) as (st' & -> & _).
  apply selection_loop_eval.
Qed.

Lemma show_ret devices inputs st :
  ∃ r st',
    show_device_selection str_strip py_int devices inputs st = (Ret r, st') ∧
    same_but_stdout st st' ∧
    ∀ d rest, r = Returned (Some d) rest → d ∈ devices.
Proof.
  destruct devices as [|d0 devices].
  - exists (Returned None inputs), st.
    split; [done|]. split; [apply same_but_stdout_refl|discriminate].
  - unfold show_device_selection, print, modify, mbind, M_bind.
    edestruct (print_devices_ret (d0 :: devices) 1) as (st1 & -> & Hs1).
    destruct (selection_loop_sound (d0 :: devices) inputs st1)
      as (r & st' & -> & Hs2 & Hmem).
    exists r, st'. split; [done|]. split; [|done].
    eapply same_but_stdout_trans; [|exact Hs2].
    eapply same_but_stdout_trans; [|exact Hs1]. by unfold same_but_stdout.
Qed.

(** The prompt never fails and never hands back a device that is not in
    the list: for every list and everything the operator may do, the
    function returns (or ends with the end of the input), has only
    printed, and a device it returns is one of the list.  On an empty list
    it returns at once, without printing or reading. *)
Theorem selection_returns_listed_device (devices : list BLEDevice)
    (inputs : list input_event) (st : State) :
  ∃ r st',
    show_device_selection str_strip py_int devices inputs st = (Ret r, st') ∧
    same_but_stdout st st' ∧
    (∀ d rest, r = Returned (Some d) rest → d ∈ devices) ∧
    (devices = [] → r = Returned None inputs ∧ st' = st).
Proof.
  destruct (show_ret devices inputs st) as (r & st' & Hshow & Hsame & Hmem).
  exists r, st'. split; [done|]. split; [done|]. split; [done|].
  intros ->. simpl in Hshow. unfold mret, M_ret in Hshow.
  by injection Hshow as <- <-.
Qed.

(** Lines that are not a number, or a number out of range, are answered
    by a new prompt and have no bearing on the outcome: after any number
    of them the selection continues as if they had not been typed. *)
Theorem selection_skips_invalid (devices : list BLEDevice)
    (bad : list string) (rest : list input_event) (st : State) :
  devices ≠ [] →
  Forall (λ line, ∀ n, py_int (str_strip line) = Some n →
                       ¬ (1 ≤ n ≤ Z.of_nat (length devices))) bad →
  eval (show_device_selection str_strip py_int devices
          ((Typed <$> bad) ++ rest)) st =
  eval (show_device_selection str_strip py_int devices rest) st.
Proof.
  intros Hne Hbad. rewrite !show_eval by done. revert st.
  induction Hbad as [|line bad Hline _ IH]; intros st; [done|].
  rewrite <- (IH st). unfold eval at 1. simpl.
  unfold print, modify, mbind, M_bind.
  destruct (py_int (str_strip line)) as [n|] eqn:Hn.
  - rewrite bool_decide_eq_false_2 by (by apply Hline).
    apply selection_loop_eval.
  - apply selection_loop_eval.
Qed.

(** What decides the selection: a line that reads as a number [n] between
    1 and the length of the list selects entry [n - 1] of the list; an
    interrupt cancels, with no device; the end of the input is an
    [EOFError]. *)
Theorem selection_decisive_input (devices : list BLEDevice) (st : State) :
  devices ≠ [] →
  eval (show_device_selection str_strip py_int devices []) st = Ret EOFError ∧
  (∀ rest, eval (show_device_selection str_strip py_int devices
                   (Interrupt :: rest)) st = Ret (Returned None rest)) ∧
  (∀ line n rest,
     py_int (str_strip line) = Some n → 1 ≤ n ≤ Z.of_nat (length devices) →
     is_Some (devices !! Z.to_nat (n - 1)) ∧
     eval (show_device_selection str_strip py_int devices
             (Typed line :: rest)) st =
     Ret (Returned (devices !! Z.to_nat (n - 1)) rest)).
Proof.
  intros Hne. split; [|split].
  - by rewrite show_eval.
  - intros rest. by rewrite show_eval.
  - intros line n rest Hn Hr.
    assert (is_Some (devices !! Z.to_nat (n - 1))) as [d Hd].
    { apply lookup_lt_is_Some. lia. }
    split; [by exists d|]. rewrite show_eval by done.
    unfold eval. simpl. unfold print, modify, mbind, M_bind.
    rewrite Hn, bool_decide_eq_true_2, Hd by done. done.
Qed.

End Selection.

Lemma selection_skips_invalid_witness :
  let devices := [mk_BLEDevice "AA:BB" (Some "Band");
                  mk_BLEDevice "CC:DD" None] in
  eval (show_device_selection strip0 int0 devices
          ((Typed <$> ["x"; "3"; ""; "0"]) ++ [Typed "2"])) st_new =
  eval (show_device_selection strip0 int0 devices [Typed "2"]) st_new.
Proof.
  intros devices.
  apply (selection_skips_invalid strip0 int0 devices ["x"; "3"; ""; "0"]).
  - discriminate.
  - repeat constructor; intros n [= <-]; simpl; lia.
Defined.

Lemma selection_decisive_input_witness :
  let devices := [mk_BLEDevice "AA:BB" (Some "Band");
                  mk_BLEDevice "CC:DD" None] in
  eval (show_device_selection strip0 int0 devices [Typed "2"; Interrupt]) st_new
  = Ret (Returned (Some (mk_BLEDevice "CC:DD" None)) [Interrupt]).
Proof.
  intros devices.
  destruct (selection_decisive_input strip0 int0 devices st_new)
    as (_ & _ & Hsel); [discriminate|].
  destruct (Hsel "2" 2 [Interrupt]) as [_ Heq].
  - reflexivity.
  - simpl. lia.
  - exact Heq.
Defined.

(** ** Streaming and the file of the sink *)

Lemma handler_open_eq data h f st :
  well_formed data →
  csv_writer st = Some h → csv_file st = Some h →
  files st !! h = Some f → f_closed f = false →
  ∃ s,
    notification_handler data st =
    (Ret tt,
     mk_State (trimmed (heart_rate_history st ++ [s])) (csv_filename st)
              (Some h) (Some h) (clock st) (3 + ticks st)
              (<[h := written [PStr (strftime_HMS (clock st (S (ticks st))));
                               PInt (value_of data)] f]> (files st))
              (stdout st ++
                 [rate_line (clock st (2 + ticks st)%nat) (value_of data)])).
Proof.
  intros Hwf Hw Hf Hl Hc.
  destruct (parse_long data st Hwf) as (s & Hp & _).
  assert (heart_rate s = value_of data) as Hv.
  { eapply parse_value_of. unfold eval. by rewrite Hp. }
  pose proof (save_open s h f (tick st) Hw Hf Hl Hc) as Hs.
  exists s. unfold notification_handler, try_except, mbind, M_bind.
  rewrite Hp, Hs. unfold datetime_now, print, modify, row_of, rate_line.
  cbn [heart_rate_history csv_filename clock ticks files stdout tick
       set_ticks set_stdout].
  rewrite Hv. reflexivity.
Qed.

Lemma rows_of_stream_app clk a : ∀ t b,
  rows_of_stream clk t (a ++ b) =
  rows_of_stream clk t a ++
  rows_of_stream clk (t + 3 * length (filter well_formed a)) b.
Proof.
  induction a as [|data a IH]; intros t b; simpl.
  - by rewrite Nat.add_0_r.
  - destruct (decide (well_formed data)).
    + rewrite filter_cons_True by done. simpl. rewrite IH.
      do 3 f_equal. lia.
    + rewrite filter_cons_False by done. apply IH.
Qed.

(** A stream on an open sink rewrites the file object of the sink and no
    other, and leaves it open. *)
Lemma stream_open_files ns : ∀ h f st,
  sink_open h st → files st !! h = Some f →
  ∃ st' f',
    stream ns st = (Ret tt, st') ∧ sink_open h st' ∧
    files st' = <[h := f']> (files st) ∧
    f_name f' = f_name f ∧ f_synced f' = f_synced f ∧ f_closed f' = false ∧
    f_rows f' = f_rows f ++ rows_of_stream (clock st) (ticks st) ns ∧
    csv_filename st' = csv_filename st ∧ clock st' = clock st ∧
    ticks st' = (ticks st + 3 * length (filter well_formed ns))%nat.
Proof.
  induction ns as [|data ns IH]; intros h f st Ho Hl.
  - exists st, f. pose proof Ho as (_ & _ & f0 & Hl0 & Hc).
    assert (f0 = f) as -> by congruence.
    simpl. rewrite app_nil_r, list_insert_id by done.
    repeat (split; [done|]). lia.
  - pose proof Ho as (Hw & Hf & f0 & Hl0 & Hc).
    assert (f0 = f) as -> by congruence.
    pose proof (sink_open_lookup _ _ Ho) as Hlt.
    unfold stream in *. simpl. unfold mbind, M_bind.
    destruct (decide (well_formed data)) as [Hwf | Hbad].
    + destruct (handler_open_eq data h f st Hwf Hw Hf Hl Hc) as (s & ->).
      set (row := [PStr (strftime_HMS (clock st (S (ticks st))));
                   PInt (value_of data)]).
      match goal with |- context [for_each _ ns ?st1] =>
        destruct (IH h (written row f) st1)
          as (st' & f' & -> & Ho' & Hfiles & Hn & Hsy & Hcl & Hr & Hcn & Hclk
              & Ht)
      end.
      { by apply sink_open_after_write. }
      { cbn [files]. by rewrite list_lookup_insert_eq. }
      exists st', f'. cbn [files clock ticks csv_filename] in *.
      rewrite list_insert_insert_eq in Hfiles.
      rewrite f_rows_written, <- app_assoc in Hr.
      rewrite filter_cons_True by done. simpl.
      repeat (split; [done|]). lia.
    + rewrite handler_malformed by (unfold well_formed in Hbad; lia).
      destruct (IH h f st Ho Hl)
        as (st' & f' & -> & Ho' & Hfiles & Hn & Hsy & Hcl & Hr & Hcn & Hclk
            & Ht).
      exists st', f'. rewrite filter_cons_False by done. done.
Qed.

(** ** Subscription, and the whole run *)

Section Session.

Variable str_strip : string → string.
Variable py_int : string → option Z.
Variable str_lower : string → string.

(** Without the service, or without the characteristic inside it, the
    function subscribes to nothing: no notification is handled, and the
    only effect is two printed lines. *)
Theorem handle_without_characteristic (client : BleakClient)
    (early later : list bytes) (st : State) :
  ¬ offers_heart_rate str_lower client →
  ∃ line,
    handle_heart_rate_notifications str_lower client early later st =
    (Ret tt, set_stdout (stdout st ++ ["正在订阅心率数据..."; line]) st).
Proof.
  intros Hno.
  unfold handle_heart_rate_notifications, try_except, print, modify,
    mbind, M_bind.
  destruct (find_service str_lower (client_services client)) as [svc|] eqn:Hs.
  - destruct (find_characteristic str_lower svc) as [ch|] eqn:Hc.
    + destruct Hno. by exists svc, ch.
    + eexists. cbn [stdout set_stdout]. rewrite <- app_assoc. reflexivity.
  - eexists. cbn [stdout set_stdout]. rewrite <- app_assoc. reflexivity.
Qed.

(** In every state the function returns normally and keeps the number of
    file objects and the handles of the monitor. *)
Lemma handle_any client early later st :
  eval (handle_heart_rate_notifications str_lower client early later) st
    = Ret tt ∧
  length (files (exec (handle_heart_rate_notifications str_lower client
                         early later) st)) = length (files st) ∧
  csv_file (exec (handle_heart_rate_notifications str_lower client
                    early later) st) = csv_file st.
Proof.
  unfold eval, exec, handle_heart_rate_notifications, try_except, print,
    modify, mbind, M_bind.
  destruct (find_service str_lower (client_services client)) as [svc|];
    [|done].
  destruct (find_characteristic str_lower svc) as [ch|]; [|done].
  match goal with |- context [stream early ?s] =>
    pose proof (stream_any early s) as (He & Hl & _ & Hf & _);
    unfold eval, exec in He, Hl, Hf;
    destruct (stream early s) as [[[]|e] st1]; [|discriminate]
  end.
  match goal with |- context [stream later ?s] =>
    pose proof (stream_any later s) as (He' & Hl' & _ & Hf' & _);
    unfold eval, exec in He', Hl', Hf';
    destruct (stream later s) as [[[]|e] st2]; [|discriminate]
  end.
  simpl in *. rewrite Hl', Hf', Hl, Hf. done.
Qed.

(** On an open sink the function rewrites the file object of the sink and
    no other, leaves it open, and adds to it the rows of the notifications
    handled - of all of them when the characteristic is offered, none
    otherwise. *)
Lemma handle_open_files client early later h f st :
  sink_open h st → files st !! h = Some f →
  ∃ st' f' rows,
    handle_heart_rate_notifications str_lower client early later st
      = (Ret tt, st') ∧
    files st' = <[h := f']> (files st) ∧ csv_file st' = Some h ∧
    csv_filename st' = csv_filename st ∧
    f_name f' = f_name f ∧ f_synced f' = f_synced f ∧ f_closed f' = false ∧
    f_rows f' = f_rows f ++ rows ∧
    (offers_heart_rate str_lower client →
     rows = rows_of_stream (clock st) (ticks st) (early ++ later)) ∧
    (¬ offers_heart_rate str_lower client → rows = []).
Proof.
  intros Ho Hl. pose proof Ho as (Hw & Hf & f0 & Hl0 & Hc).
  assert (f0 = f) as -> by congruence.
  unfold handle_heart_rate_notifications, try_except, print, modify,
    mbind, M_bind.
  destruct (find_service str_lower (client_services client)) as [svc|] eqn:Hs;
    [destruct (find_characteristic str_lower svc) as [ch|] eqn:Hch|].
  - match goal with |- context [stream early ?s] =>
      destruct (stream_open_files early h f s)
        as (st1 & f1 & -> & Ho1 & Hfiles1 & Hn1 & Hsy1 & Hc1 & Hr1 & Hcn1
            & Hclk1 & Ht1);
        [by eapply sink_open_ext | exact Hl |]
    end.
    match goal with |- context [stream later ?s] =>
      destruct (stream_open_files later h f1 s)
        as (st2 & f2 & -> & Ho2 & Hfiles2 & Hn2 & Hsy2 & Hc2 & Hr2 & Hcn2
            & Hclk2 & Ht2);
        [by eapply sink_open_ext | |]
    end.
    { cbn [files set_stdout]. rewrite Hfiles1.
      apply list_lookup_insert_eq. by eapply lookup_lt_Some. }
    cbn [files clock ticks csv_filename set_stdout] in *.
    exists st2, f2, (rows_of_stream (clock st) (ticks st) (early ++ later)).
    split; [done|]. split.
    { by rewrite Hfiles2, Hfiles1, list_insert_insert_eq. }
    split; [by destruct Ho2 as (_ & ? & _)|].
    split; [congruence|]. split; [congruence|]. split; [congruence|].
    split; [done|]. split.
    { rewrite Hr2, Hr1, Hclk1, Ht1, rows_of_stream_app, <- app_assoc. done. }
    split; [done|]. intros Hno. destruct Hno. by exists svc, ch.
  - exists (set_stdout ((stdout st ++ ["正在订阅心率数据..."]) ++ ["未找到心率测量特征"]) st), f, [].
    cbn [files csv_file csv_filename set_stdout].
    rewrite list_insert_id, app_nil_r by done.
    repeat (split; [done|]). split; [|done].
    intros (svc' & ch' & Hs' & Hch'). congruence.
  - exists (set_stdout ((stdout st ++ ["正在订阅心率数据..."]) ++ ["未找到心率服务"]) st), f, [].
    cbn [files csv_file csv_filename set_stdout].
    rewrite list_insert_id, app_nil_r by done.
    repeat (split; [done|]). split; [|done].
    intros (svc' & ch' & Hs' & Hch'). congruence.
Qed.

Ltac same_out H :=
  destruct H as (? & ? & ? & ? & ? & ? & ?);
  unfold same_but_stdout; simpl in *; repeat split; congruence.

(** What the selection returns does not depend on the state. *)
Lemma show_eval_indep devices inputs st st' :
  eval (show_device_selection str_strip py_int devices inputs) st =
  eval (show_device_selection str_strip py_int devices inputs) st'.
Proof.
  destruct devices as [|d0 devices]; [done|].
  rewrite !show_eval by done. apply selection_loop_eval.
Qed.

(** Scan, selection and connection only print.  A client comes out of
    them only when a listed device was selected and the connection
    succeeded; it is a client for that device. *)
Lemma before_connect_sound r st :
  ∃ c st',
    before_connect str_strip py_int r st = (Ret c, st') ∧
    same_but_stdout st st' ∧
    (∀ devices d rest services,
       eval (scan_for_heart_rate_devices (run_ads r)) st = Ret devices →
       eval (show_device_selection str_strip py_int devices (run_inputs r)) st
         = Ret (Returned (Some d) rest) →
       run_connect r = ConnectOk services →
       c = Some (mk_BleakClient (address d) services)) ∧
    (Forall (λ a, ¬ accepted a) (run_ads r) → c = None) ∧
    (run_inputs r = [] → c = None) ∧
    (∀ rest, run_inputs r = Interrupt :: rest → c = None) ∧
    (∀ msg, run_connect r = ConnectFails msg → c = None).
Proof.
  unfold before_connect, mbind, M_bind.
  pose proof (scan_output_eq (run_ads r) st) as Hscan.
  remember (first_seen [] (run_ads r)) as results eqn:Hfs.
  assert (eval (scan_for_heart_rate_devices (run_ads r)) st = Ret results)
    as Hres by (unfold eval; by rewrite Hscan).
  rewrite Hscan. destruct results as [|d0 ds].
  - eexists _, _. unfold print, modify. split; [reflexivity|].
    split; [by unfold same_but_stdout|]. split; [|done].
    intros devices d rest services Hd Hsel _.
    rewrite Hres in Hd. injection Hd as <-. discriminate Hsel.
  - assert (d0 :: ds ≠ []) as Hne by discriminate.
    match goal with |- context [show_device_selection _ _ _ _ ?s] =>
      destruct (show_ret str_strip py_int (d0 :: ds)
                  (run_inputs r) s) as (sel & st2 & Hshow & Hsame & _);
      pose proof (show_eval_indep (d0 :: ds) (run_inputs r) s st) as Hindep
    end.
    unfold eval in Hindep at 1. rewrite Hshow in Hindep. cbn [fst] in Hindep.
    rewrite Hshow.
    assert (Forall (λ a, ¬ accepted a) (run_ads r) → False) as Hacc.
    { intros Hall. rewrite first_seen_all_seen in Hfs; [done|].
      intros a Ha Hacc. rewrite Forall_forall in Hall.
      by destruct (Hall a Ha). }
    assert (eval (show_device_selection str_strip py_int (d0 :: ds) []) st
            = Ret EOFError) as Heof by (by rewrite show_eval).
    assert (∀ rest, eval (show_device_selection str_strip py_int (d0 :: ds)
                            (Interrupt :: rest)) st
                    = Ret (Returned None rest)) as Hint
      by (intros rest'; by rewrite show_eval).
    destruct sel as [[d|] rest|].
    + unfold connect_to_device, print, modify, mbind, M_bind.
      destruct (run_connect r) as [services|msg] eqn:Hconn.
      * eexists _, _. split; [reflexivity|]. split.
        { same_out Hsame. }
        split.
        { intros devices d' rest' services' Hd Hsel [= <-].
          rewrite Hres in Hd. injection Hd as <-.
          rewrite <- Hindep in Hsel. by injection Hsel as <- _. }
        split; [intros Hall; by destruct (Hacc Hall)|].
        split.
        { intros Hin. rewrite Hin, Heof in Hindep. discriminate. }
        split; [|discriminate].
        intros rest' Hin. rewrite Hin, Hint in Hindep. discriminate.
      * eexists _, _. split; [reflexivity|]. split.
        { same_out Hsame. }
        split; [discriminate|done].
    + eexists _, _. split; [reflexivity|]. split.
      { same_out Hsame. }
      split; [|done].
      intros devices d' rest' services' Hd Hsel _.
      rewrite Hres in Hd. injection Hd as <-.
      rewrite <- Hindep in Hsel. discriminate.
    + eexists _, _. unfold print, modify. split; [reflexivity|]. split.
      { same_out Hsame. }
      split; [|done].
      intros devices d' rest' services' Hd Hsel _.
      rewrite Hres in Hd. injection Hd as <-.
      rewrite <- Hindep in Hsel. discriminate.
Qed.

(** The state in which [main] starts its [try] block. *)
Lemma main_start r st :
  main str_strip py_int str_lower r st =
  (c ← try_except (before_connect str_strip py_int r)
         (λ e, print ("程序运行出错: " +:+ exn_str e) ;; mret None);
   match c with
   | Some client =>
       try_except (session str_lower client r)
                  (λ e, print ("程序运行出错: " +:+ exn_str e))
   | None => mret tt
   end ;;
   main_teardown c (run_link_up r))
    (set_stdout (stdout st ++ ["小米手环心率监控器"; str_repeat "=" 50])
                (new_monitor st)).
Proof.
  unfold main, print, modify, mbind, M_bind. cbn [stdout set_stdout new_monitor].
  by rewrite <- app_assoc.
Qed.

(** The clean-up on a monitor that opened no file changes nothing but the
    output. *)
Lemma main_teardown_no_file c link st :
  csv_file st = None →
  ∃ st', main_teardown c link st = (Ret tt, st') ∧ same_but_stdout st st'.
Proof.
  intros Hf. unfold main_teardown, mbind, M_bind, print, modify.
  destruct (bool_decide (is_Some c) && link); simpl.
  - rewrite close_csv_file_no_file by done.
    eexists. split; [done|]. by unfold same_but_stdout.
  - rewrite close_csv_file_no_file by done.
    eexists. split; [done|]. apply same_but_stdout_refl.
Qed.

(** The clean-up on a monitor that holds file [h] closes and flushes it. *)
Lemma main_teardown_file c link h f st :
  csv_file st = Some h → files st !! h = Some f →
  ∃ st', main_teardown c link st = (Ret tt, st') ∧
         files st' = <[h := mk_File (f_name f) [] (f_rows f) (f_synced f)
                                    true]> (files st) ∧
         heart_rate_history st' = heart_rate_history st.
Proof.
  intros Hf Hl. unfold main_teardown, mbind, M_bind, print, modify.
  destruct (bool_decide (is_Some c) && link); simpl.
  - rewrite (close_csv_file_eq h f) by done. eexists. done.
  - rewrite (close_csv_file_eq h f) by done. eexists. done.
Qed.

(** One run of [main], whatever the outside world does: it returns
    normally; when no client came out of scan, selection and connection it
    has created no file; otherwise it has created exactly one, which it
    leaves closed and flushed, holding the header row and the rows of the
    notifications handled. *)
Lemma main_run r st :
  ∃ c st0 st',
    before_connect str_strip py_int r
      (set_stdout (stdout st ++ ["小米手环心率监控器"; str_repeat "=" 50])
                  (new_monitor st)) = (Ret c, st0) ∧
    main str_strip py_int str_lower r st = (Ret tt, st') ∧
    match c with
    | None => files st' = files st ∧ heart_rate_history st' = []
    | Some client =>
        ∃ rows,
          files st' =
            files st ++
            [mk_File (session_filename (clock st (ticks st))) []
                     (header_row :: rows) [] true] ∧
          (offers_heart_rate str_lower client →
           rows = rows_of_stream (clock st) (S (ticks st))
                                 (run_early r ++ run_later r)) ∧
          (¬ offers_heart_rate str_lower client → rows = [])
    end.
Proof.
  rewrite main_start. unfold mbind, M_bind, try_except.
  match goal with |- context [before_connect _ _ _ ?s] =>
    destruct (before_connect_sound r s) as (c & st0 & Hbc & Hsame & _)
  end.
  rewrite Hbc. exists c, st0.
  destruct Hsame as (Hh & Hn & Hw & Hf & Hclk & Ht & Hfiles).
  cbn [heart_rate_history csv_filename csv_writer csv_file clock ticks files
       set_stdout new_monitor] in *.
  destruct c as [client|].
  - unfold session, mbind, M_bind. rewrite init_csv_file_eq.
    pose proof (sink_open_init st0) as Ho.
    unfold exec in Ho. rewrite init_csv_file_eq in Ho. cbn [snd] in Ho.
    match type of Ho with sink_open ?h ?st1 =>
      destruct (handle_open_files client (run_early r) (run_later r) h
                  (mk_File (session_filename (clock st0 (ticks st0)))
                           [header_row] [] [] false) st1 Ho)
        as (st2 & f' & rows & Hhandle & Hfiles2 & Hcf & _ & Hname & Hsy & Hcl
            & Hr & Hyes & Hno)
    end.
    { cbn [files]. by apply list_lookup_middle. }
    rewrite Hhandle. cbn [files clock ticks] in *.
    replace (length (files st0)) with (length (files st0) + 0)%nat
      in Hfiles2 at 1 by lia.
    rewrite insert_app_r in Hfiles2. simpl in Hfiles2.
    destruct (main_teardown_file (Some client) (run_link_up r)
                (length (files st0)) f' st2) as (st' & Htd & Hfiles' & _).
    { exact Hcf. }
    { rewrite Hfiles2. by apply list_lookup_middle. }
    rewrite Htd. exists st'. split; [done|]. split; [done|].
    exists rows. split; [|split].
    + rewrite Hfiles', Hfiles2.
      replace (length (files st0)) with (length (files st0) + 0)%nat at 1
        by lia.
      rewrite insert_app_r. simpl.
      rewrite Hname, Hsy, Hr, Hfiles, Hclk, Ht. reflexivity.
    + intros Hoff. rewrite (Hyes Hoff), Hclk, Ht. reflexivity.
    + exact Hno.
  - destruct (main_teardown_no_file None (run_link_up r) st0 Hf)
      as (st' & Htd & Hsame').
    unfold mret, M_ret. rewrite Htd. exists st'.
    split; [done|]. split; [done|].
    destruct Hsame' as (Hh' & _ & _ & _ & _ & _ & Hfiles').
    split; congruence.
Qed.

(** The clean-up of [main] when the call of [disconnect()] returns, in
    any state of the monitor and its file, that is however the [try] block
    ended: it returns normally, and the file the monitor holds, if any, is
    closed with every row it held flushed; the history is kept. *)
Theorem main_teardown_closes (c : option BleakClient) (link : bool)
    (st : State) :
  eval (main_teardown c link) st = Ret tt ∧
  heart_rate_history (exec (main_teardown c link) st) = heart_rate_history st ∧
  (∀ h f, csv_file st = Some h → files st !! h = Some f →
     files (exec (main_teardown c link) st) !! h =
     Some (mk_File (f_name f) [] (f_flushed f ++ f_buffer f) (f_synced f)
                   true)).
Proof.
  destruct (csv_file st) as [h|] eqn:Hf.
  - destruct (files st !! h) as [f|] eqn:Hl.
    + destruct (main_teardown_file c link h f st Hf Hl)
        as (st' & Htd & Hfiles & Hh).
      unfold eval, exec. rewrite Htd. cbn [fst snd].
      split; [done|]. split; [done|].
      intros h' f' [= <-] Hl'. rewrite Hl in Hl'. injection Hl' as <-.
      rewrite Hfiles. apply list_lookup_insert_eq. by eapply lookup_lt_Some.
    + unfold eval, exec, main_teardown, close_csv_file, file_close, print,
        modify, mbind, M_bind, gets.
      destruct (bool_decide (is_Some c) && link); simpl;
        rewrite Hf; simpl; rewrite Hl; simpl;
        (split; [done|]; split; [done|]; intros h' f' [= <-] Hl'; congruence).
  - destruct (main_teardown_no_file c link st Hf) as (st' & Htd & Hsame).
    unfold eval, exec. rewrite Htd. cbn [fst snd].
    destruct Hsame as (Hh & _). split; [done|]. split; [done|]. discriminate.
Qed.

Lemma main_teardown_closes_witness :
  files (exec (main_teardown None false) st_streaming) !! 0%nat =
  Some (mk_File "heart_rate_20240101_120000.csv" []
                [[PStr "time"; PStr "rate"]] [] true).
Proof.
  destruct (main_teardown_closes None false st_streaming) as (_ & _ & Hc).
  apply (Hc 0%nat (mk_File "heart_rate_20240101_120000.csv"
                           [header_row] [] [] false)); reflexivity.
Defined.


(** No session, no file.  When no advertisement carries the Heart Rate
    Service, or the operator cancels at the first prompt or the input has
    ended, or the connection is refused, [main] creates no file and
    buffers nothing. *)
Theorem main_without_session (r : Run) (st : State) :
  Forall (λ a, ¬ accepted a) (run_ads r) ∨
  run_inputs r = [] ∨
  (∃ rest, run_inputs r = Interrupt :: rest) ∨
  (∃ msg, run_connect r = ConnectFails msg) →
  files (exec (main str_strip py_int str_lower r) st) = files st ∧
  heart_rate_history (exec (main str_strip py_int str_lower r) st) = [].
Proof.
  intros Hcase.
  destruct (main_run r st) as (c & st0 & st' & Hbc & Hmain & Hc).
  match type of Hbc with before_connect _ _ _ ?s = _ =>
    destruct (before_connect_sound r s)
      as (c' & st0' & Hbc' & _ & _ & Hads & Heof & Hint & Hfail)
  end.
  rewrite Hbc in Hbc'. injection Hbc' as <- <-.
  assert (c = None) as ->.
  { destruct Hcase as [H | [H | [[rest H] | [msg H]]]]; eauto. }
  unfold exec. rewrite Hmain. exact Hc.
Qed.

(** A whole run.  When the scan lists devices, the operator selects one,
    the connection succeeds and the peer offers the characteristic, [main]
    leaves exactly one new file: named after the time at which it was
    opened, closed, fully flushed, and holding the header row followed by
    one row for each notification of two bytes or more, in the order of
    arrival, with the value decoded from it. *)
Theorem main_full_run (r : Run) (st : State) (devices : list BLEDevice)
    (d : BLEDevice) (rest : list input_event) (services : list GATTService) :
  eval (scan_for_heart_rate_devices (run_ads r)) st = Ret devices →
  eval (show_device_selection str_strip py_int devices (run_inputs r)) st
    = Ret (Returned (Some d) rest) →
  run_connect r = ConnectOk services →
  offers_heart_rate str_lower (mk_BleakClient (address d) services) →
  ∃ rows,
    files (exec (main str_strip py_int str_lower r) st) =
      files st ++
      [mk_File (session_filename (clock st (ticks st))) []
               ([PStr "time"; PStr "rate"] :: rows) [] true] ∧
    rows = rows_of_stream (clock st) (S (ticks st))
                          (run_early r ++ run_later r) ∧
    (λ row : Row, row !! 1%nat) <$> rows =
      (λ data, Some (PInt (value_of data))) <$>
        filter well_formed (run_early r ++ run_later r).
Proof.
  intros Hscan Hsel Hconn Hoff.
  destruct (main_run r st) as (c & st0 & st' & Hbc & Hmain & Hc).
  match type of Hbc with before_connect _ _ _ ?s = _ =>
    destruct (before_connect_sound r s) as (c' & st0' & Hbc' & _ & Hsome & _);
    pose proof (Hsome devices d rest services) as Hsome';
    pose proof (show_eval_indep devices (run_inputs r) s st) as Hindep
  end.
  rewrite Hbc in Hbc'. injection Hbc' as <- <-.
  rewrite !scan_first_seen in *. rewrite Hindep in Hsome'.
  rewrite (Hsome' Hscan Hsel Hconn) in Hc.
  destruct Hc as (rows & Hfiles & Hyes & _).
  exists rows. unfold exec. rewrite Hmain. cbn [snd].
  split; [exact Hfiles|]. split; [by apply Hyes|].
  rewrite (Hyes Hoff). apply rows_of_stream_rates.
Qed.

End Session.

Lemma main_without_session_witness :
  files (exec (main strip0 int0 lower0
                 (mk_Run [(mk_BLEDevice "CC:DD" (Some "Lamp"),
                           mk_AdvertisementData [])]
                         [Typed "1"] (ConnectOk []) [] [[x00; x48]] true))
              st_new) = [].
Proof.
  apply (main_without_session strip0 int0 lower0 _ st_new).
  left. repeat constructor. unfold accepted. simpl.
  intros H. by apply elem_of_nil in H.
Defined.

Lemma main_full_run_witness :
  ∃ rows,
    files (exec (main strip0 int0 lower0
                   (mk_Run [(mk_BLEDevice "AA:BB" (Some "Band"),
                             mk_AdvertisementData [HRS_UUID])]
                           [Typed "1"]
                           (ConnectOk
                              [mk_GATTService
                                 "0000180D-0000-1000-8000-00805F9B34FB"
                                 [mk_GATTCharacteristic HRM_UUID]])
                           [[x00; x48]] [[x48]; [x05; x50; x01]] false))
                st_new) =
    [mk_File "heart_rate_20240101_120000.csv" []
             ([PStr "time"; PStr "rate"] :: rows) [] true] ∧
    (λ row : Row, row !! 1%nat) <$> rows = [Some (PInt 72); Some (PInt 336)].
Proof.
  destruct (main_full_run strip0 int0 lower0
              (mk_Run [(mk_BLEDevice "AA:BB" (Some "Band"),
                        mk_AdvertisementData [HRS_UUID])]
                      [Typed "1"]
                      (ConnectOk
                         [mk_GATTService
                            "0000180D-0000-1000-8000-00805F9B34FB"
                            [mk_GATTCharacteristic HRM_UUID]])
                      [[x00; x48]] [[x48]; [x05; x50; x01]] false)
              st_new
              [mk_BLEDevice "AA:BB" (Some "Band")]
              (mk_BLEDevice "AA:BB" (Some "Band")) []
              [mk_GATTService "0000180D-0000-1000-8000-00805F9B34FB"
                              [mk_GATTCharacteristic HRM_UUID]])
    as (rows & Hfiles & _ & Hrates).
  - vm_compute. reflexivity.
  - vm_compute. reflexivity.
  - reflexivity.
  - eexists _, _. split; vm_compute; reflexivity.
  - exists rows. split; [exact Hfiles | exact Hrates].
Defined.

Lemma handle_without_characteristic_witness :
  ∃ line,
    handle_heart_rate_notifications lower0
      (mk_BleakClient "AA:BB" [mk_GATTService "0000180a" []])
      [[x00; x48]] [[x06; x50]] st_streaming =
    (Ret tt,
     set_stdout (stdout st_streaming ++ ["正在订阅心率数据..."; line])
                st_streaming).
Proof.
  apply (handle_without_characteristic lower0).
  intros (svc & ch & Hs & _). vm_compute in Hs. discriminate Hs.
Defined.
